(** * Kovaak's CSV data loader: a shallow embedding of [kovaaks_loader.py]

    The development follows the two functions of the module:
    [parse_kovaaks_csv] (boundary scan, event table, weapon table, stats map)
    and [load_all_kovaaks_data] (file name filter, per-file parse, the three
    nested indices).

    Text is modelled by [string], one [ascii] per character; the classes of
    characters ([str.isspace], decimal digits) are the ones Python uses on
    ASCII text, a character of code 128 or more counts as an ordinary
    character.  A Python [dict] that is only read by key is a [gmap]. *)

From Stdlib Require Import ZArith Lia Bool.
From Stdlib Require Import Ascii String.
From Stdlib Require Import Floats.SpecFloat.
From Stdlib Require DecimalString DecimalNat QArith.
From stdpp Require Import base option list strings gmap.

Local Open Scope Z_scope.

(** ** Python [str] operations *)

Module PyStr.

(** [str.isspace] on one ASCII character: TAB, LF, VT, FF, CR, the four
    separators FS, GS, RS, US, and the space. *)
Definition isspace (c : ascii) : bool :=
  match c with
  | "009" | "010" | "011" | "012" | "013"
  | "028" | "029" | "030" | "031" | " " => true
  | _ => false
  end%char.

Definition isdigit (c : ascii) : bool :=
  match c with
  | "0" | "1" | "2" | "3" | "4" | "5" | "6" | "7" | "8" | "9" => true
  | _ => false
  end%char.

Definition digit_value (c : ascii) : Z := Z.of_nat (nat_of_ascii c) - 48.

Definition is_empty (s : string) : bool :=
  match s with EmptyString => true | String _ _ => false end.

(** [s.lstrip(chars)] and [s.rstrip(chars)], the set of characters given
    as a predicate. *)
Fixpoint lstrip_by (p : ascii -> bool) (s : string) : string :=
  match s with
  | String c r => if p c then lstrip_by p r else s
  | EmptyString => EmptyString
  end.

Fixpoint rstrip_by (p : ascii -> bool) (s : string) : string :=
  match s with
  | String c r =>
      let r' := rstrip_by p r in
      if p c && is_empty r' then EmptyString else String c r'
  | EmptyString => EmptyString
  end.

Definition strip_by (p : ascii -> bool) (s : string) : string :=
  rstrip_by p (lstrip_by p s).

(** [s.strip()], [s.lstrip(',')], [s.rstrip(',')] *)
Definition strip : string -> string := strip_by isspace.
Definition is_comma (c : ascii) : bool := Ascii.eqb c ",".
Definition lstrip_commas : string -> string := lstrip_by is_comma.
Definition rstrip_commas : string -> string := rstrip_by is_comma.

(** [s.startswith(p)] and [s.endswith(p)] *)
Definition startswith (s p : string) : bool := String.prefix p s.

Fixpoint endswith (s p : string) : bool :=
  String.eqb s p ||
  match s with
  | String _ r => endswith r p
  | EmptyString => false
  end.

(** [c in s] for a one-character [c] *)
Fixpoint contains (c : ascii) (s : string) : bool :=
  match s with
  | String d r => Ascii.eqb d c || contains c r
  | EmptyString => false
  end.

(** [s.split(c, 1)] for a string that contains [c]: the text before the
    first [c] and the text after it; [None] when [c] does not occur
    (Python then returns the one-element list [[s]]). *)
Fixpoint split_once (c : ascii) (s : string) : option (string * string) :=
  match s with
  | String d r =>
      if Ascii.eqb d c then Some (EmptyString, r)
      else match split_once c r with
           | Some (a, b) => Some (String d a, b)
           | None => None
           end
  | EmptyString => None
  end.

(** ASCII lower case, for the case-insensitive words of [float]. *)
Definition lower (c : ascii) : ascii :=
  let n := nat_of_ascii c in
  if (Nat.leb 65 n && Nat.leb n 90)%bool then ascii_of_nat (n + 32) else c.

Fixpoint lower_str (s : string) : string :=
  match s with
  | String c r => String (lower c) (lower_str r)
  | EmptyString => EmptyString
  end.

End PyStr.

(** ** Python values stored in the stats map *)

(** A stats value is a [str], an [int] or a [float]; a [float] is an IEEE 754
    binary64 number, given by [spec_float] at precision 53. *)
Inductive pyval : Type :=
  | VStr (s : string)
  | VInt (n : Z)
  | VFloat (f : spec_float).

(** The rational number that a finite [float] stands for. *)
Definition float_value (f : spec_float) : option QArith_base.Q :=
  match f with
  | S754_zero _ => Some (QArith_base.Qmake 0 1)
  | S754_finite s m e =>
      Some (QArith_base.Qmult
              (QArith_base.inject_Z (if s then Zneg m else Zpos m))
              (QArith_base.Qpower (QArith_base.Qmake 2 1) e))
  | S754_infinity _ | S754_nan => None
  end.

(** ** [int(str)] and [float(str)] *)

Module PyNum.
Import PyStr.

(** [digitpart ::= digit (["_"] digit)*]: the value read so far and the
    number of digits read so far are threaded along the text that follows
    a digit. *)
Fixpoint digits_after (acc : Z) (n : nat) (s : string) : option (Z * nat) :=
  match s with
  | EmptyString => Some (acc, n)
  | String c r =>
      if isdigit c then digits_after (10 * acc + digit_value c) (S n) r
      else if Ascii.eqb c "_" then
        match r with
        | String d r' =>
            if isdigit d
            then digits_after (10 * acc + digit_value d) (S n) r'
            else None
        | EmptyString => None
        end
      else None
  end.

Definition digitpart (s : string) : option (Z * nat) :=
  match s with
  | String c r => if isdigit c then digits_after (digit_value c) 1 r else None
  | EmptyString => None
  end.

(** An optional sign: [true] for a minus. *)
Definition split_sign (s : string) : bool * string :=
  match s with
  | String "+" r => (false, r)
  | String "-" r => (true, r)
  | _ => (false, s)
  end.

(** [sys.get_int_max_str_digits()], the default. *)
Definition max_str_digits : Z := 4300.

(** [int(s)] in base 10; [None] stands for [ValueError], which is also
    what a numeral of more than [max_str_digits] digits gives (the digits
    are counted as written, leading zeros included, underscores not). *)
Definition py_int (s : string) : option Z :=
  let '(neg, body) := split_sign (strip s) in
  match digitpart body with
  | Some (v, k) =>
      if max_str_digits <? Z.of_nat k then None
      else Some (if neg then - v else v)
  | None => None
  end.

(** The binary64 number nearest to [m * 10 ^ e] (ties to even), as the
    correctly rounded conversion of [float] gives it. *)
Definition binary64_of_decimal (neg : bool) (m : Z) (e : Z) : spec_float :=
  match m with
  | Zpos p =>
      if 0 <=? e
      then binary_normalize 53 1024 (if neg then - (m * 10 ^ e) else m * 10 ^ e) 0 neg
      else match 10 ^ (- e) with
           | Zpos d => SFdiv 53 1024 (S754_finite neg p 0) (S754_finite false d 0)
           | _ => S754_nan
           end
  | _ => S754_zero neg
  end.

(** [number ::= [digitpart] "." digitpart | digitpart ["."]]: the digits
    of both sides as one integer, and the number of digits after the
    point. *)
Definition number (s : string) : option (Z * nat) :=
  match split_once "." s with
  | Some (ip, fp) =>
      match is_empty ip, is_empty fp with
      | true, true => None
      | false, true =>
          match digitpart ip with Some (v, _) => Some (v, 0%nat) | None => None end
      | true, false => digitpart fp
      | false, false =>
          match digitpart ip, digitpart fp with
          | Some (v, _), Some (w, k) => Some (v * 10 ^ Z.of_nat k + w, k)
          | _, _ => None
          end
      end
  | None =>
      match digitpart s with Some (v, _) => Some (v, 0%nat) | None => None end
  end.

(** [exponent ::= ("e" | "E") [sign] digitpart], the text after the
    letter. *)
Definition exponent (s : string) : option Z :=
  let '(neg, body) := split_sign s in
  match digitpart body with
  | Some (v, _) => Some (if neg then - v else v)
  | None => None
  end.

Definition is_e (c : ascii) : bool := Ascii.eqb c "e" || Ascii.eqb c "E".

Fixpoint split_exponent (s : string) : string * option string :=
  match s with
  | String c r =>
      if is_e c then (EmptyString, Some r)
      else let '(a, b) := split_exponent r in (String c a, b)
  | EmptyString => (EmptyString, None)
  end.

Definition floatnumber (neg : bool) (s : string) : option spec_float :=
  let '(mant, ex) := split_exponent s in
  match number mant with
  | Some (m, k) =>
      match ex with
      | None => Some (binary64_of_decimal neg m (- Z.of_nat k))
      | Some et =>
          match exponent et with
          | Some e => Some (binary64_of_decimal neg m (e - Z.of_nat k))
          | None => None
          end
      end
  | None => None
  end.

(** [float(s)]; [None] stands for [ValueError]. *)
Definition py_float (s : string) : option spec_float :=
  let '(neg, body) := split_sign (strip s) in
  let w := lower_str body in
  if String.eqb w "inf" || String.eqb w "infinity" then Some (S754_infinity neg)
  else if String.eqb w "nan" then Some S754_nan
  else floatnumber neg body.

End PyNum.


Import PyStr PyNum.

(** ** Tables, exceptions and input/output *)

(** A cell of a table is a text, or missing ([NaN]).  The columns of a
    [DataFrame] are its labels in order, each row has one cell per column.
    The conversion of a column of numerals to a numeric dtype is not
    modelled: cells keep the text read.  The labels of the rows (the index)
    are not part of a [DataFrame] here. *)
Definition cell : Type := option string.

Record DataFrame : Type := mkDataFrame {
  columns : list string;
  rows : list (list cell)
}.

(** [pd.DataFrame()] *)
Definition DataFrame_empty : DataFrame := mkDataFrame [] [].

(** [len(df)] *)
Definition df_len (df : DataFrame) : nat := length (rows df).

Definition is_nan (c : cell) : bool :=
  match c with None => true | Some _ => false end.

(** [df.dropna(how='all')] *)
Definition dropna_all (df : DataFrame) : DataFrame :=
  mkDataFrame (columns df) (List.filter (fun r => negb (forallb is_nan r)) (rows df)).

(** The exceptions that reach the loader, each with the message that
    [str(e)] gives. *)
Inductive exn : Type :=
  | OSError (msg : string)
  | UnicodeDecodeError (msg : string)
  | EmptyDataError (msg : string)
  | ParserError (msg : string).

Definition exn_message (e : exn) : string :=
  match e with
  | OSError m | UnicodeDecodeError m | EmptyDataError m | ParserError m => m
  end.

Inductive result (A : Type) : Type :=
  | Ok (a : A)
  | Raise (e : exn).
Arguments Ok {A} a.
Arguments Raise {A} e.

(** What the program does to the outside world, in order. *)
Inductive io_event : Type :=
  | IoListdir (dir : string)
  | IoReadlines (path : string)
  | IoReadCsv (path : string) (skiprows nrows : nat)
  | IoPrint (text : string).

(** A computation yields the events it performed and a value or an
    exception. *)
Definition IO (A : Type) : Type := list io_event * result A.

#[global] Instance IO_ret : MRet IO := fun A a => ([], Ok a).

#[global] Instance IO_bind : MBind IO := fun A B f m =>
  match m with
  | (t, Ok a) => let '(t', r) := f a in (t ++ t', r)
  | (t, Raise e) => (t, Raise e)
  end.

(** [try: m except Exception as e: h e] *)
Definition try_except {A : Type} (m : IO A) (h : exn -> IO A) : IO A :=
  match m with
  | (t, Raise e) => let '(t', r) := h e in (t ++ t', r)
  | (t, Ok a) => (t, Ok a)
  end.

Definition io_events {A : Type} (m : IO A) : list io_event := fst m.
Definition io_result {A : Type} (m : IO A) : result A := snd m.

Definition print (text : string) : IO unit := ([IoPrint text], Ok tt).

(** Number of times the content of [path] is read from the file system. *)
Definition is_read_of (path : string) (ev : io_event) : bool :=
  match ev with
  | IoReadlines p | IoReadCsv p _ _ => String.eqb p path
  | _ => false
  end.

Definition count_reads (path : string) (t : list io_event) : nat :=
  length (List.filter (is_read_of path) t).

(** ** [pandas.read_csv] on plain comma-separated text

    [pandas] is a library the loader calls; the loader itself is generic in
    it (see the section below).  This is its behaviour with the default
    settings: the first [skiprows] lines are skipped, blank lines are
    skipped everywhere ([skip_blank_lines=True]) and do not count as rows,
    the first line left is the header, at most [nrows] records are read
    after it, the default missing-value markers become [NaN], and a file
    with no line left raises [EmptyDataError].

    The width of the table is the number of fields of the header or, when
    it has more, of the first record: the fields that the first record has
    in excess are then the row labels (the implicit index, which is not
    part of [DataFrame] here), and the header labels name the fields after
    them.  A record with fewer fields than the width is filled with [NaN];
    a later record with more fields raises [ParserError].

    Two things are outside this model, and the statements that rest on it
    say so in their hypotheses: the quote character (a field that starts
    with a quote runs to the closing quote, across commas and line ends;
    see [quote_free]), and the relabelling of header fields that are empty
    or repeated (see [plain_labels]). *)
Module Pandas.

(** The line without its terminator. *)
Definition chomp (l : string) : string :=
  rstrip_by (fun c => Ascii.eqb c "010" || Ascii.eqb c "013")%char l.

Definition is_blank_char (c : ascii) : bool :=
  (Ascii.eqb c " " || Ascii.eqb c "009")%char.

Definition is_blank_line (l : string) : bool :=
  is_empty (lstrip_by is_blank_char (chomp l)).

(** The fields of a line, for a line that holds no quote character. *)
Fixpoint split_fields (s : string) : list string :=
  match s with
  | EmptyString => [EmptyString]
  | String c r =>
      if Ascii.eqb c "," then EmptyString :: split_fields r
      else match split_fields r with
           | f :: fs => String c f :: fs
           | [] => [String c EmptyString]
           end
  end.

Definition na_values : list string :=
  [""; "#N/A"; "#N/A N/A"; "#NA"; "-1.#IND"; "-1.#QNAN"; "-NaN"; "-nan";
   "1.#IND"; "1.#QNAN"; "<NA>"; "N/A"; "NA"; "NULL"; "NaN"; "None";
   "n/a"; "nan"; "null"].

Definition to_cell (f : string) : cell :=
  if existsb (String.eqb f) na_values then None else Some f.

(** The fields of the header line; they are the labels of the columns when
    none is empty and no two are equal. *)
Definition header_fields (l : string) : list string := split_fields (chomp l).

Definition pad (width : nat) (cs : list cell) : list cell :=
  cs ++ replicate (width - length cs) None.

(** The width of the table: the fields of the header or, when it has
    more fields, of the first record. *)
Definition table_width (width : nat) (ls : list string) : nat :=
  match ls with
  | [] => width
  | l :: _ => Nat.max width (length (split_fields (chomp l)))
  end.

(** The cells of a record under the [width] columns of a table of [total]
    fields: the record is filled up to [total] fields, and the leading
    [total - width] of them are the row label. *)
Definition record_cells (width total : nat) (fields : list string) : list cell :=
  drop (total - width) (pad total (to_cell <$> fields)).

(** The records of a table of [total] fields.  The message of the error
    names the line in the file; it is not modelled, since lines 60-64 and
    75-76 of the loader handle the exception without looking at it. *)
Fixpoint read_records_from (width total : nat) (ls : list string)
    : result (list (list cell)) :=
  match ls with
  | [] => Ok []
  | l :: rest =>
      let fields := split_fields (chomp l) in
      if (total <? length fields)%nat
      then Raise (ParserError "Error tokenizing data. C error: too many fields")
      else match read_records_from width total rest with
           | Ok rs => Ok (record_cells width total fields :: rs)
           | Raise e => Raise e
           end
  end.

Definition read_records (width : nat) (ls : list string) : result (list (list cell)) :=
  read_records_from width (table_width width ls) ls.

(** The text holds no quote character. *)
Definition quote_free (l : string) : bool := negb (contains "034" l).

(** The fields of the header are labels that [pandas] keeps as written:
    none is empty and no two are equal. *)
Definition plain_labels (header : string) : bool :=
  forallb (fun f => negb (is_empty f)) (header_fields header) &&
  bool_decide (NoDup (header_fields header)).

Definition read_csv (lines : list string) (skiprows nrows : nat) : result DataFrame :=
  match List.filter (fun l => negb (is_blank_line l)) (drop skiprows lines) with
  | [] => Raise (EmptyDataError "No columns to parse from file")
  | header :: body =>
      let names := header_fields header in
      match read_records (length names) (take nrows body) with
      | Ok rs => Ok (mkDataFrame names rs)
      | Raise e => Raise e
      end
  end.

End Pandas.


(** ** [parse_kovaaks_csv] *)

(** The two sentinels: [line.strip().startswith('Weapon,')] and
    [line.strip().startswith('Kills:,')]. *)
Definition is_weapon_line (line : string) : bool := startswith (strip line) "Weapon,".
Definition is_kills_line (line : string) : bool := startswith (strip line) "Kills:,".

(** Lines 44-49: the boundary scan.  [i] is the index of the head of the
    remaining lines; reaching the [break] returns at once. *)
Fixpoint scan_boundaries (i : nat) (lines : list string)
    (section1_end section2_end : option nat) : option nat * option nat :=
  match lines with
  | [] => (section1_end, section2_end)
  | line :: rest =>
      let section1_end :=
        if is_weapon_line line && bool_decide (section1_end = None)
        then Some i else section1_end in
      if is_kills_line line && bool_decide (section2_end = None)
      then (section1_end, Some i)
      else scan_boundaries (S i) rest section1_end section2_end
  end.

Definition find_boundaries (lines : list string) : option nat * option nat :=
  scan_boundaries 0 lines None None.

(** Lines 89-100: the value of a stats line, from the text after the first
    colon. *)
Definition stats_value (raw : string) : pyval :=
  let value := strip raw in
  let value := strip (rstrip_commas (lstrip_commas (strip value))) in
  if is_empty value then VStr value
  else if contains "." value then
    match py_float value with
    | Some f => VFloat f
    | None => VStr value
    end
  else
    match py_int value with
    | Some n => VInt n
    | None => VStr value
    end.

(** Lines 84-88: the key and the value that a line contributes, if any.
    A line that holds a colon always splits in two parts. *)
Definition stats_entry (raw_line : string) : option (string * pyval) :=
  let line := strip raw_line in
  if negb (is_empty line) && contains ":" line then
    match split_once ":" line with
    | Some (k, v) => Some (strip k, stats_value v)
    | None => None
    end
  else None.

(** Lines 84-101: one iteration of the stats loop. *)
Definition stats_step (stats_dict : gmap string pyval) (raw_line : string)
    : gmap string pyval :=
  match stats_entry raw_line with
  | Some (key, value) => <[key := value]> stats_dict
  | None => stats_dict
  end.

(** Lines 81-101 *)
Definition parse_stats (lines : list string) (section2_end : option nat)
    : gmap string pyval :=
  match section2_end with
  | Some s2 => foldl stats_step ∅ (drop s2 lines)
  | None => ∅
  end.

(** ** The file name pattern and the indices of [load_all_kovaaks_data] *)

Definition nl : string := String "010" EmptyString.

(** [str(n)] for a natural number *)
Definition string_of_nat (n : nat) : string :=
  DecimalString.NilZero.string_of_uint (Nat.to_uint n).

Module Regex.

(** A literal at the head of the text: the text after it. *)
Fixpoint literal (lit s : string) : option string :=
  match lit with
  | EmptyString => Some s
  | String a lit' =>
      match s with
      | String c s' => if Ascii.eqb a c then literal lit' s' else None
      | EmptyString => None
      end
  end.

(** [\s*]: greedy; what follows it in the pattern is never white space,
    so giving characters back cannot help. *)
Definition skip_spaces (s : string) : string := lstrip_by isspace s.

(** A fixed shape at the head of the text, [d] standing for [\d] and any
    other character for itself: the text matched and the text after it. *)
Fixpoint shape (t s : string) : option (string * string) :=
  match t with
  | EmptyString => Some (EmptyString, s)
  | String a t' =>
      match s with
      | String c s' =>
          if (if Ascii.eqb a "d" then isdigit c else Ascii.eqb a c)
          then match shape t' s' with
               | Some (m, r) => Some (String c m, r)
               | None => None
               end
          else None
      | EmptyString => None
      end
  end.

(** [\d{4}\.\d{2}\.\d{2}-\d{2}\.\d{2}\.\d{2}] *)
Definition timestamp_shape : string := "dddd.dd.dd-dd.dd.dd".

(** [\s*-\s*Challenge\s*-\s*(timestamp)\s*Stats\.csv] at the head of the
    text: the timestamp. *)
Definition match_tail (s : string) : option string :=
  s1 ← literal "-" (skip_spaces s);
  s2 ← literal "Challenge" (skip_spaces s1);
  s3 ← literal "-" (skip_spaces s2);
  '(ts, s4) ← shape timestamp_shape (skip_spaces s3);
  _ ← literal "Stats.csv" (skip_spaces s4);
  Some ts.

(** [re.match(r'(.*?)\s*-\s*Challenge\s*-\s*(...)\s*Stats\.csv', s)]:
    groups 1 and 2.  The lazy group 1 is the shortest prefix after which
    the rest of the pattern matches; [.] does not match a line feed; the
    match is anchored at the start of [s] only. *)
Fixpoint re_match_filename (s : string) : option (string * string) :=
  match match_tail s with
  | Some ts => Some (EmptyString, ts)
  | None =>
      match s with
      | String c r =>
          if Ascii.eqb c "010" then None
          else match re_match_filename r with
               | Some (g, ts) => Some (String c g, ts)
               | None => None
               end
      | EmptyString => None
      end
  end.

End Regex.
Import Regex.

(** [os.path.join(a, b)] on POSIX *)
Definition os_path_join (a b : string) : string :=
  if startswith b "/" then b
  else if is_empty a || endswith a "/" then a +:+ b
  else a +:+ "/" +:+ b.

(** [collections.defaultdict] with string keys: the items and the value
    that the default factory builds for a missing key (the factories used
    here build a fresh empty value each time). *)
Record defaultdict (V : Type) : Type := mkDefaultDict {
  dd_default : V;
  dd_items : gmap string V
}.
Arguments mkDefaultDict {V} _ _.
Arguments dd_default {V} _.
Arguments dd_items {V} _.

(** [d[k]]: a missing key is given the default, which is stored and
    returned ([__missing__]).  The value and the dictionary afterwards. *)
Definition dd_getitem {V : Type} (d : defaultdict V) (k : string) : V * defaultdict V :=
  match dd_items d !! k with
  | Some v => (v, d)
  | None => (dd_default d, mkDefaultDict (dd_default d) (<[k := dd_default d]> (dd_items d)))
  end.

(** [d[k] = v] *)
Definition dd_setitem {V : Type} (d : defaultdict V) (k : string) (v : V) : defaultdict V :=
  mkDefaultDict (dd_default d) (<[k := v]> (dd_items d)).

(** [len(d)] *)
Definition dd_len {V : Type} (d : defaultdict V) : nat := size (dd_items d).

(** [d[k1][k2]]: the inner dictionary is the object stored under [k1], so
    what the inner lookup stores is seen through the outer one. *)
Definition dd_getitem2 {V : Type} (d : defaultdict (defaultdict V)) (k1 k2 : string)
    : V * defaultdict (defaultdict V) :=
  let '(inner, d1) := dd_getitem d k1 in
  let '(v, inner') := dd_getitem inner k2 in
  (v, dd_setitem d1 k1 inner').

(** [d[k1][k2] = v] *)
Definition dd_setitem2 {V : Type} (d : defaultdict (defaultdict V)) (k1 k2 : string) (v : V)
    : defaultdict (defaultdict V) :=
  let '(inner, d1) := dd_getitem d k1 in
  dd_setitem d1 k1 (dd_setitem inner k2 v).

(** Lines 120-122 *)
Definition new_table_index : defaultdict (defaultdict DataFrame) :=
  mkDefaultDict (mkDefaultDict DataFrame_empty ∅) ∅.

Definition new_stats_index : defaultdict (defaultdict (gmap string pyval)) :=
  mkDefaultDict (mkDefaultDict ∅ ∅) ∅.

(** The variables of the loop: the three indices and the counter [i]. *)
Record indices : Type := mkIndices {
  main_data : defaultdict (defaultdict DataFrame);
  weapon_data : defaultdict (defaultdict DataFrame);
  stats_data : defaultdict (defaultdict (gmap string pyval));
  processed : nat
}.

Definition initial_indices : indices :=
  mkIndices new_table_index new_table_index new_stats_index 0.

Section Loader.

(** The file system: what [open(path).readlines()] gives, the lines of the
    file with their terminators, or the exception it raises. *)
Variable fs : string -> result (list string).

(** [pandas.read_csv] as a function of the lines of the file, [skiprows]
    and [nrows]. *)
Variable read_csv : list string -> nat -> nat -> result DataFrame.

(** [os.listdir] *)
Variable listdir : string -> result (list string).

(** Lines 33-34 *)
Definition readlines (filepath : string) : IO (list string) :=
  ([IoReadlines filepath], fs filepath).

(** [pd.read_csv(filepath, skiprows=.., nrows=..)] opens the file again. *)
Definition pd_read_csv (filepath : string) (skiprows nrows : nat) : IO DataFrame :=
  ([IoReadCsv filepath skiprows nrows],
   match fs filepath with
   | Ok lines => read_csv lines skiprows nrows
   | Raise e => Raise e
   end).

(** Lines 52-66 *)
Definition parse_main_table (filepath : string) (section1_end : option nat)
    : IO DataFrame :=
  match section1_end with
  | Some s1 =>
      if (0 <? s1)%nat then
        try_except
          (main_df ← pd_read_csv filepath 0 (s1 - 1);
           if (df_len main_df =? 0)%nat
           then pd_read_csv filepath 0 0
           else mret main_df)
          (fun _ =>
             try_except (pd_read_csv filepath 0 0)
                        (fun _ => mret DataFrame_empty))
      else mret DataFrame_empty
  | None => mret DataFrame_empty
  end.

(** Lines 69-78 *)
Definition parse_weapon_table (filepath : string)
    (section1_end section2_end : option nat) : IO DataFrame :=
  match section1_end, section2_end with
  | Some s1, Some s2 =>
      try_except
        (weapon_df ← pd_read_csv filepath s1 (s2 - s1 - 1);
         mret (dropna_all weapon_df))
        (fun _ => mret DataFrame_empty)
  | _, _ => mret DataFrame_empty
  end.

Definition parse_kovaaks_csv (filepath : string)
    : IO (DataFrame * DataFrame * gmap string pyval) :=
  lines ← readlines filepath;
  let '(section1_end, section2_end) := find_boundaries lines in
  main_df ← parse_main_table filepath section1_end;
  weapon_df ← parse_weapon_table filepath section1_end section2_end;
  let stats_dict := parse_stats lines section2_end in
  mret (main_df, weapon_df, stats_dict).


(** *** [load_all_kovaaks_data] *)

(** Lines 125-147: the body of the loop for one directory entry.  An
    exception of the parse is raised before any index is assigned, so the
    handler resumes from the state the iteration started with. *)
Definition process_file (csv_dir : string) (st : indices) (filename : string)
    : IO indices :=
  if endswith filename ".csv" then
    match re_match_filename filename with
    | Some (group1, group2) =>
        let task_type := strip group1 in
        let date := group2 in
        let filepath := os_path_join csv_dir filename in
        try_except
          ('(main_df, weapon_df, stats_dict) ← parse_kovaaks_csv filepath;
           let i := S (processed st) in
           let st' :=
             {| main_data := dd_setitem2 (main_data st) task_type date main_df;
                weapon_data := dd_setitem2 (weapon_data st) task_type date weapon_df;
                stats_data := dd_setitem2 (stats_data st) task_type date stats_dict;
                processed := i |} in
           (if (i mod 10 =? 0)%nat
            then print ("Processed " +:+ string_of_nat i +:+ " files...")
            else mret tt);;
           mret st')
          (fun e =>
             print ("Error processing " +:+ filename +:+ ": " +:+ exn_message e);;
             mret st)
    | None => mret st
    end
  else mret st.

Fixpoint process_files (csv_dir : string) (st : indices) (names : list string)
    : IO indices :=
  match names with
  | [] => mret st
  | filename :: rest =>
      st' ← process_file csv_dir st filename;
      process_files csv_dir st' rest
  end.

Definition load_all_kovaaks_data (csv_dir : string)
    : IO (defaultdict (defaultdict DataFrame) *
          defaultdict (defaultdict DataFrame) *
          defaultdict (defaultdict (gmap string pyval))) :=
  names ← ([IoListdir csv_dir], listdir csv_dir);
  st ← process_files csv_dir initial_indices names;
  print (nl +:+ "Total files processed: " +:+ string_of_nat (processed st));;
  print ("Unique tasks: " +:+ string_of_nat (dd_len (main_data st)));;
  mret (main_data st, weapon_data st, stats_data st).

End Loader.

(** * The vocabulary of the statements

    Closed forms of what the code computes, predicates, and the sample
    inputs that the statements below are run on. *)

(** ** The boundary scan *)

(** [is_first p lines i]: line [i] is the first line that satisfies [p]. *)
Definition is_first (p : string -> bool) (lines : list string) (i : nat) : Prop :=
  (exists l, lines !! i = Some l /\ p l = true) /\
  forall k l, (k < i)%nat -> lines !! k = Some l -> p l = false.

(** No line before line [i] satisfies [p]. *)
Definition none_before (p : string -> bool) (lines : list string) (i : nat) : Prop :=
  forall k l, (k < i)%nat -> lines !! k = Some l -> p l = false.

(** Index of the first element that satisfies [p] and comes before any
    element that satisfies [q]. *)
Fixpoint first_before (p q : string -> bool) (lines : list string) : option nat :=
  match lines with
  | [] => None
  | l :: rest =>
      if p l then Some 0%nat
      else if q l then None
      else S <$> first_before p q rest
  end.

(** The predicate that no line satisfies. *)
Definition never (_ : string) : bool := false.

(** ** The tables of one file *)

Section TableForms.

Variable read_csv : list string -> nat -> nat -> result DataFrame.

(** What the fallback of the event table gives: the table of the header
    alone, or the empty frame. *)
Definition header_or_empty (lines : list string) : DataFrame :=
  match read_csv lines 0 0 with
  | Ok df => df
  | Raise _ => DataFrame_empty
  end.

(** The event table as a function of the lines. *)
Definition main_table_of (lines : list string) (section1_end : option nat) : DataFrame :=
  match section1_end with
  | Some s1 =>
      if (0 <? s1)%nat then
        match read_csv lines 0 (s1 - 1) with
        | Ok df => if (df_len df =? 0)%nat then header_or_empty lines else df
        | Raise _ => header_or_empty lines
        end
      else DataFrame_empty
  | None => DataFrame_empty
  end.

(** The weapon table as a function of the lines. *)
Definition weapon_table_of (lines : list string)
    (section1_end section2_end : option nat) : DataFrame :=
  match section1_end, section2_end with
  | Some s1, Some s2 =>
      match read_csv lines s1 (s2 - s1 - 1) with
      | Ok df => dropna_all df
      | Raise _ => DataFrame_empty
      end
  | _, _ => DataFrame_empty
  end.

End TableForms.

(** The event is a read of [path] by [pandas]. *)
Definition is_csv_read (path : string) (ev : io_event) : Prop :=
  exists k n, ev = IoReadCsv path k n.

(** The weapon table in the words of the specification: the lines of the
    half-open range from [section1_end] to [section2_end], and only these,
    parsed as a table whose header is the first of them, rows of missing
    cells dropped. *)
Definition weapon_table_of_range (lines : list string) (s1 s2 : nat) : DataFrame :=
  match Pandas.read_csv (take (s2 - s1) (drop s1 lines)) 0 (s2 - s1) with
  | Ok df => dropna_all df
  | Raise _ => DataFrame_empty
  end.

(** ** The stats map *)

(** The value of the last line of [ls] that contributes key [k]. *)
Fixpoint last_value (k : string) (ls : list string) : option pyval :=
  match ls with
  | [] => None
  | l :: rest =>
      match last_value k rest with
      | Some v => Some v
      | None =>
          match stats_entry l with
          | Some (k', v) => if decide (k' = k) then Some v else None
          | None => None
          end
      end
  end.

(** Lines 89 and 91: the text that is offered to [float] or [int]. *)
Definition clean_value (raw : string) : string :=
  strip (rstrip_commas (lstrip_commas (strip (strip raw)))).

(** The binary64 number 0.5: mantissa [2 ^ 52], exponent [-53]. *)
Definition binary64_half : spec_float := S754_finite false 4503599627370496 (-53).

(** ** File names *)

(** Every character of the text satisfies [p]. *)
Fixpoint all_chars (p : ascii -> bool) (s : string) : bool :=
  match s with
  | EmptyString => true
  | String c r => p c && all_chars p r
  end.

(** The loose form that the pattern accepts at the head of a name: runs of
    white space of any length, also none, around the two dashes and before
    [Stats.csv]. *)
Definition loose_tail (s ts rest : string) : Prop :=
  exists w1 w2 w3 w4 w5,
    s = w1 +:+ "-" +:+ w2 +:+ "Challenge" +:+ w3 +:+ "-" +:+ w4 +:+ ts +:+ w5
        +:+ "Stats.csv" +:+ rest /\
    all_chars isspace w1 = true /\ all_chars isspace w2 = true /\
    all_chars isspace w3 = true /\ all_chars isspace w4 = true /\
    all_chars isspace w5 = true /\
    shape timestamp_shape ts = Some (ts, "").

(** The file name form in the words of the specification: a task name,
    then [ - Challenge - ], a timestamp and [ Stats.csv], each separator
    exactly as written and nothing after. *)
Definition exact_filename_form (name : string) : Prop :=
  exists task ts,
    name = task +:+ " - Challenge - " +:+ ts +:+ " Stats.csv" /\
    shape timestamp_shape ts = Some (ts, "").

(** ** The indices and the loop *)

(** The entry stored under a task name and a timestamp, if any. *)
Definition dd_lookup2 {V : Type} (d : defaultdict (defaultdict V)) (k1 k2 : string)
    : option V :=
  inner ← dd_items d !! k1; dd_items inner !! k2.

(** Number of entries of an index, over all task names. *)
Definition dd_entry_count {V : Type} (d : defaultdict (defaultdict V)) : nat :=
  map_fold (fun _ inner n => (n + size (dd_items inner))%nat) 0%nat (dd_items d).

(** An entry is stored under the task name and the timestamp. *)
Definition has_entry {V : Type} (d : defaultdict (defaultdict V)) (k1 k2 : string) : bool :=
  match dd_lookup2 d k1 k2 with Some _ => true | None => false end.

(** An index as lines 120-122 build it: the factory of the outer dictionary
    gives an empty inner one, and the factory of every inner dictionary
    gives [dv]. *)
Definition index_wf {V : Type} (dv : V) (d : defaultdict (defaultdict V)) : Prop :=
  dd_default d = mkDefaultDict dv ∅ /\
  forall k inner, dd_items d !! k = Some inner -> dd_default inner = dv.

(** Looking up a missing key gives the default and stores it, at both
    levels. *)
Definition auto_vivifying {V : Type} (dv : V) (d : defaultdict (defaultdict V)) : Prop :=
  (forall task, dd_items d !! task = None ->
     dd_getitem d task =
       (mkDefaultDict dv ∅,
        mkDefaultDict (dd_default d) (<[task := mkDefaultDict dv ∅]> (dd_items d)))) /\
  (forall task date, dd_lookup2 d task date = None ->
     (dd_getitem2 d task date).1 = dv /\
     dd_lookup2 (dd_getitem2 d task date).2 task date = Some dv).

(** The three indices of the loop are as lines 120-122 build them. *)
Definition indices_wf (st : indices) : Prop :=
  index_wf DataFrame_empty (main_data st) /\
  index_wf DataFrame_empty (weapon_data st) /\
  index_wf (∅ : gmap string pyval) (stats_data st).

(** The state after the three assignments of lines 138-142. *)
Definition record_file (st : indices) (task_type date : string)
    (main_df weapon_df : DataFrame) (stats_dict : gmap string pyval) : indices :=
  {| main_data := dd_setitem2 (main_data st) task_type date main_df;
     weapon_data := dd_setitem2 (weapon_data st) task_type date weapon_df;
     stats_data := dd_setitem2 (stats_data st) task_type date stats_dict;
     processed := S (processed st) |}.

(** Lines 143-144 *)
Definition progress_events (i : nat) : list io_event :=
  if (i mod 10 =? 0)%nat
  then [IoPrint ("Processed " +:+ string_of_nat i +:+ " files...")]
  else [].

(** Line 146 *)
Definition error_event (filename : string) (e : exn) : io_event :=
  IoPrint ("Error processing " +:+ filename +:+ ": " +:+ exn_message e).

(** The texts printed by a run. *)
Definition printed (t : list io_event) : list string :=
  omap (fun ev => match ev with IoPrint s => Some s | _ => None end) t.

(** The value that a run returns, if it returns. *)
Definition returned {A : Type} (m : IO A) : option A :=
  match io_result m with
  | Ok a => Some a
  | Raise _ => None
  end.

(** ** Sample inputs *)

(** A line with its terminator. *)
Definition ln (s : string) : string := s +:+ nl.

(** A file system that holds one file. *)
Definition one_file (path : string) (lines : list string) : string -> result (list string) :=
  fun p => if String.eqb p path then Ok lines
           else Raise (OSError "No such file or directory").

(** A stats block alone. *)
Definition stats_only_file : list string :=
  [ln "Kills:,33"; ln "Deaths:,0"; ln "Fight Time:,59.5"; ln "Hash:,N/A"].

(** In each table the first record has one field more than the header:
    [pandas] takes the leading field of the records for the row label. *)
Definition malformed_file : list string :=
  [ln "Kill #,Bot"; ln "1,target,extra"; ln "Weapon,Shots"; ln "pistol,41,9";
   ln "Kills:,33"; ln "Deaths:,0"].

(** Both tables malformed: in the event section and in the weapon section
    the second record has more fields than the first. *)
Definition wide_record_file : list string :=
  [ln "Kill #,Bot"; ln "1,target"; ln "2,target,extra";
   ln "Weapon,Shots"; ln "pistol,41"; ln "rifle,12,9";
   ln "Kills:,33"; ln "Deaths:,0"].

(** A file with its three sections and no blank line. *)
Definition three_section_file : list string :=
  [ln "Kill #,Bot"; ln "1,target"; ln "Weapon,Shots"; ln "pistol,41";
   ln "Kills:,33"; ln "Score:,1,234,"; ln "Accuracy:,0.50,"; ln "Hash:,N/A"].

(** A file laid out as the trainer writes it, a blank line after each
    table. *)
Definition blank_separated_file : list string :=
  [ln "Kill #,Bot"; ln "1,target"; ln "";
   ln "Weapon,Shots"; ln "pistol,41"; ln "";
   ln "Kills:,33"; ln "Deaths:,0"].

(** A file with no event, laid out as the trainer writes it: the header of
    the event table and a blank line, then the weapon table. *)
Definition zero_event_file : list string :=
  [ln "Kill #,Timestamp,Bot"; ln "";
   ln "Weapon,Shots"; ln "pistol,41"; ln "";
   ln "Kills:,0"].

(** A header line and no event. *)
Definition header_only_file : list string :=
  [ln "Kill #,Timestamp,Bot"; ln "Weapon,Shots"; ln "pistol,41"; ln "Kills:,0"].

(** A directory of three files that parse and one that cannot be decoded. *)
Definition close_range_1 : string := "Close Range - Challenge - 2024.01.15-10.30.00 Stats.csv".
Definition close_range_2 : string := "Close Range - Challenge - 2024.01.16-09.00.00 Stats.csv".
Definition tile_frenzy_1 : string := "Tile Frenzy - Challenge - 2024.01.15-11.00.00 Stats.csv".
Definition tile_frenzy_bad : string := "Tile Frenzy - Challenge - 2024.01.17-08.00.00 Stats.csv".

(** The three files that parse hold [three_section_file]; reading any
    other path raises. *)
Definition sample_fs (path : string) : result (list string) :=
  if String.eqb path ("stats/" +:+ close_range_1)
     || String.eqb path ("stats/" +:+ close_range_2)
     || String.eqb path ("stats/" +:+ tile_frenzy_1)
  then Ok three_section_file
  else Raise (UnicodeDecodeError "'utf-8' codec can't decode byte 0xff in position 0").

Definition sample_listing : list string :=
  [close_range_1; tile_frenzy_bad; close_range_2; tile_frenzy_1].

(** The run over that directory. *)
Definition sample_run :=
  load_all_kovaaks_data sample_fs Pandas.read_csv (fun _ => Ok sample_listing) "stats".

(** A name with no white space around the dashes and before [Stats.csv]. *)
Definition loose_name : string := "A-Challenge-2024.01.15-10.30.00Stats.csv".

(** ** A run, entry by entry *)

(** The directory entry passes the two tests of lines 126 and 130. *)
Definition candidate (name : string) : bool :=
  endswith name ".csv" &&
  match re_match_filename name with Some _ => true | None => false end.

(** The task name that line 131 takes from a name. *)
Definition task_of (name : string) : option string :=
  match re_match_filename name with
  | Some (g1, _) => Some (strip g1)
  | None => None
  end.

(** The path opened by [readlines], for such an event. *)
Definition opened (ev : io_event) : option string :=
  match ev with IoReadlines p => Some p | _ => None end.

(** The two kinds of lines that the loop prints, told by how they start
    (lines 144 and 146). *)
Definition is_error_line (s : string) : bool := startswith s "Error processing ".

Definition is_progress_line (s : string) : bool := startswith s "Processed ".

(** The line of lines 143-144 for the [i]-th recorded file. *)
Definition progress_line (i : nat) : string :=
  "Processed " +:+ string_of_nat i +:+ " files...".

Section RunVocabulary.

Variable fs : string -> result (list string).
Variable read_csv : list string -> nat -> nat -> result DataFrame.

(** The identity of a directory entry that passes the two tests of lines
    126-130, and what the parse of its file gives. *)
Definition file_outcome (dir name : string)
    : option (string * string * result (DataFrame * DataFrame * gmap string pyval)) :=
  if endswith name ".csv" then
    match re_match_filename name with
    | Some (g1, g2) =>
        Some (strip g1, g2,
              io_result (parse_kovaaks_csv fs read_csv (os_path_join dir name)))
    | None => None
    end
  else None.

(** The record parsed from [name], when [name] has the identity [(t, d)]
    and its parse raises nothing. *)
Definition parsed_as (dir t d name : string)
    : option (DataFrame * DataFrame * gmap string pyval) :=
  match file_outcome dir name with
  | Some (t', d', Ok r) => if decide ((t', d') = (t, d)) then Some r else None
  | _ => None
  end.

(** The record of the last entry of the listing that is parsed with the
    identity [(t, d)]. *)
Fixpoint last_parsed (dir t d : string) (names : list string)
    : option (DataFrame * DataFrame * gmap string pyval) :=
  match names with
  | [] => None
  | name :: rest =>
      match last_parsed dir t d rest with
      | Some r => Some r
      | None => parsed_as dir t d name
      end
  end.

(** The three entries under [(t, d)] are those of the record [r], or, with
    no record, what they are in [st]. *)
Definition entries_are (st st' : indices) (t d : string)
    (r : option (DataFrame * DataFrame * gmap string pyval)) : Prop :=
  dd_lookup2 (main_data st') t d =
    match r with Some x => Some x.1.1 | None => dd_lookup2 (main_data st) t d end /\
  dd_lookup2 (weapon_data st') t d =
    match r with Some x => Some x.1.2 | None => dd_lookup2 (weapon_data st) t d end /\
  dd_lookup2 (stats_data st') t d =
    match r with Some x => Some x.2 | None => dd_lookup2 (stats_data st) t d end.

(** [readlines] raises nothing on the file of the entry. *)
Definition readable (dir name : string) : bool :=
  match fs (os_path_join dir name) with Ok _ => true | Raise _ => false end.

(** The entry is a candidate and its file can be read. *)
Definition recorded (dir name : string) : bool :=
  candidate name && readable dir name.

(** The line printed by the handler of lines 145-147 for the entry, if its
    iteration reaches the handler. *)
Definition error_line (dir name : string) : option string :=
  if candidate name then
    match fs (os_path_join dir name) with
    | Ok _ => None
    | Raise e => Some ("Error processing " +:+ name +:+ ": " +:+ exn_message e)
    end
  else None.

End RunVocabulary.

(** ** Further forms and sample inputs *)

(** The loose form up to [Stats.csv], without it. *)
Definition loose_head (q ts : string) : Prop :=
  exists w1 w2 w3 w4 w5,
    q = w1 +:+ "-" +:+ w2 +:+ "Challenge" +:+ w3 +:+ "-" +:+ w4 +:+ ts +:+ w5 /\
    all_chars isspace w1 = true /\ all_chars isspace w2 = true /\
    all_chars isspace w3 = true /\ all_chars isspace w4 = true /\
    all_chars isspace w5 = true /\
    shape timestamp_shape ts = Some (ts, "").

(** The event table in the words of the comments of lines 51-66: the
    first [s1] lines of the file, and only these, read in full as a table
    whose header is the first of them, with the fallbacks of the code. *)
Definition event_table_of_range (lines : list string) (s1 : nat) : DataFrame :=
  let section := take s1 lines in
  match Pandas.read_csv section 0 (length section) with
  | Ok df =>
      if (df_len df =? 0)%nat then header_or_empty Pandas.read_csv section else df
  | Raise _ => header_or_empty Pandas.read_csv section
  end.

(** An event table and stats lines, but the stats block does not start
    with [Kills:,]. *)
Definition no_kills_file : list string :=
  [ln "Kill #,Bot"; ln "1,target"; ln "Weapon,Shots"; ln "pistol,41";
   ln "Deaths:,0"; ln "Score:,12"].

(** A weapon section whose only record is a line of commas. *)
Definition empty_weapon_row_file : list string :=
  [ln "Kill #,Bot"; ln "1,target"; ln "Weapon,Shots"; ln ","; ln "Kills:,33"].

(** A directory of twelve candidates, eleven of which can be read. *)
Definition twelve_names : list string :=
  (fun d => "Tile Frenzy - Challenge - 2024.01." +:+ d +:+ "-08.00.00 Stats.csv") <$>
    ["01"; "02"; "03"; "04"; "05"; "06"; "07"; "08"; "09"; "10"; "11"; "12"].

(** Every path holds [stats_only_file], but one that cannot be opened. *)
Definition eleven_readable (path : string) : result (list string) :=
  if String.eqb path ("stats/Tile Frenzy - Challenge - 2024.01.04-08.00.00 Stats.csv")
  then Raise (OSError "[Errno 13] Permission denied")
  else Ok stats_only_file.

(** * Properties *)

(** ** The boundary scan *)

Lemma first_before_spec p q lines i :
  first_before p q lines = Some i <->
  is_first p lines i /\ none_before q lines i.
Proof.
  unfold is_first, none_before.
  revert i. induction lines as [|l rest IH]; intros i; simpl.
  - split; [done|]. intros [[(x & Hx & _) _] _]. by rewrite lookup_nil in Hx.
  - destruct (p l) eqn:Hp.
    + split.
      * intros [= <-]. repeat split; try (intros; lia). by exists l.
      * intros [[_ Hmin] _]. destruct i as [|i]; [done|].
        specialize (Hmin 0%nat l ltac:(lia) eq_refl). congruence.
    + destruct (q l) eqn:Hq.
      * split; [done|]. intros [[(x & Hx & Hpx) _] Hq'].
        destruct i as [|i]; simpl in Hx; [congruence|].
        specialize (Hq' 0%nat l ltac:(lia) eq_refl). congruence.
      * split.
        -- intros (j & Hj & ->)%fmap_Some.
           apply IH in Hj as [[(x & Hx & Hpx) Hmin] Hnq]. repeat split.
           ++ by exists x.
           ++ intros [|k] y Hk Hy; simpl in Hy; [congruence|].
              apply (Hmin k); [lia|done].
           ++ intros [|k] y Hk Hy; simpl in Hy; [congruence|].
              apply (Hnq k); [lia|done].
        -- intros [[(y & Hy & Hpy) Hmin'] Hnq'].
           destruct i as [|i]; simpl in Hy; [congruence|].
           apply fmap_Some. exists i. split; [|done]. apply IH. repeat split.
           ++ by exists y.
           ++ intros k z Hk Hz. apply (Hmin' (S k)); [lia|done].
           ++ intros k z Hk Hz. apply (Hnq' (S k)); [lia|done].
Qed.

Lemma fmap_shift (i : nat) (o : option nat) :
  (fun k => (i + k)%nat) <$> (S <$> o) = (fun k => (S i + k)%nat) <$> o.
Proof. destruct o; simpl; f_equal; lia. Qed.

(** The scan in closed form: a boundary already set is kept, the others
    are found from the remaining lines. *)
Lemma scan_boundaries_closed lines : forall i s1,
  scan_boundaries i lines s1 None =
  (match s1 with
   | Some a => Some a
   | None => (fun k => (i + k)%nat) <$> first_before is_weapon_line is_kills_line lines
   end,
   (fun k => (i + k)%nat) <$> first_before is_kills_line never lines).
Proof.
  induction lines as [|l rest IH]; intros i s1; simpl.
  - by destruct s1.
  - destruct (is_kills_line l) eqn:Hk; simpl.
    + destruct s1 as [a|]; simpl.
      * rewrite andb_false_r. f_equal. f_equal. lia.
      * rewrite andb_true_r. destruct (is_weapon_line l); simpl; repeat f_equal; lia.
    + rewrite IH, !fmap_shift. destruct s1 as [a|]; simpl.
      * by rewrite andb_false_r.
      * rewrite andb_true_r. destruct (is_weapon_line l); simpl.
        -- do 2 f_equal. lia.
        -- by rewrite fmap_shift.
Qed.

Lemma find_boundaries_closed lines :
  find_boundaries lines =
  (first_before is_weapon_line is_kills_line lines,
   first_before is_kills_line never lines).
Proof.
  unfold find_boundaries. rewrite scan_boundaries_closed.
  f_equal; by destruct (first_before _ _ lines).
Qed.

Lemma first_before_app_stop p q pre k rest :
  q k = true \/ p k = true ->
  first_before p q (pre ++ k :: rest) = first_before p q (pre ++ [k]).
Proof.
  intros Hk. induction pre as [|l pre IH]; simpl.
  - destruct (p k); [done|]. destruct Hk as [->|?]; [done|congruence].
  - by rewrite IH.
Qed.

(** The weapon line, when found, comes before the line of the stats. *)
Lemma first_before_lt lines i j :
  first_before is_weapon_line is_kills_line lines = Some i ->
  first_before is_kills_line never lines = Some j ->
  (i <= j)%nat.
Proof.
  intros [_ Hi]%first_before_spec [[(l & Hl & Hk) _] _]%first_before_spec.
  destruct (decide (i <= j)%nat); [done|].
  specialize (Hi j l ltac:(lia) Hl). congruence.
Qed.

(** C7. The boundary scan records as [section2_end] the index of the first
    line whose trimmed form starts with [Kills:,], and as [section1_end] the
    index of the first line whose trimmed form starts with [Weapon,], looked
    for up to that line only; it halts there, so the lines after the first
    [Kills:,] line, whatever they are, change neither boundary. *)
Theorem boundary_scan_first_sentinels (lines : list string) :
  (forall j, (find_boundaries lines).2 = Some j <->
             is_first is_kills_line lines j) /\
  (forall i, (find_boundaries lines).1 = Some i <->
             is_first is_weapon_line lines i /\ none_before is_kills_line lines i) /\
  (forall pre k rest rest',
     lines = pre ++ k :: rest -> is_kills_line k = true ->
     find_boundaries (pre ++ k :: rest') = find_boundaries lines).
Proof.
  rewrite find_boundaries_closed; simpl. split; [|split].
  - intros j. split.
    + intros Hj. by apply first_before_spec in Hj as [? _].
    + intros Hj. apply first_before_spec. split; [done|]. by intros k l _ _.
  - intros i. apply first_before_spec.
  - intros pre k rest rest' -> Hk. rewrite !find_boundaries_closed.
    by rewrite !(first_before_app_stop _ _ pre k rest'),
               !(first_before_app_stop _ _ pre k rest) by auto.
Qed.

(** ** The three sections of one file *)

Section ParserFacts.

Variable fs : string -> result (list string).
Variable read_csv : list string -> nat -> nat -> result DataFrame.

Lemma is_csv_read_intro path k n : is_csv_read path (IoReadCsv path k n).
Proof. by exists k, n. Qed.

Lemma parse_main_table_closed path lines s1 :
  fs path = Ok lines ->
  exists t,
    parse_main_table fs read_csv path s1 = (t, Ok (main_table_of read_csv lines s1)) /\
    Forall (is_csv_read path) t /\ (length t <= 3)%nat /\
    (s1 = None \/ s1 = Some 0%nat -> t = []).
Proof.
  intros Hfs. unfold parse_main_table, main_table_of, header_or_empty.
  destruct s1 as [[|n]|]; simpl.
  - exists []. repeat split; auto.
  - unfold pd_read_csv, mbind, IO_bind, mret, IO_ret, try_except. rewrite Hfs.
    replace (n - 0)%nat with n by lia.
    pose proof (is_csv_read_intro path) as Hev.
    destruct (read_csv lines 0 n) as [df|e]; simpl;
      [destruct (df_len df =? 0)%nat; simpl|];
      try (destruct (read_csv lines 0 0) as [df0|e0]; simpl);
      (eexists; split; [reflexivity|]; split; [repeat constructor; auto|];
       split; [simpl; lia | intros [?|?]; congruence]).
  - exists []. repeat split; auto.
Qed.

Lemma parse_weapon_table_closed path lines s1 s2 :
  fs path = Ok lines ->
  exists t,
    parse_weapon_table fs read_csv path s1 s2 = (t, Ok (weapon_table_of read_csv lines s1 s2)) /\
    Forall (is_csv_read path) t /\ (length t <= 1)%nat /\
    (s1 = None -> t = []).
Proof.
  intros Hfs. unfold parse_weapon_table, weapon_table_of.
  destruct s1 as [a|], s2 as [b|]; simpl;
    try (exists []; repeat split; auto; fail).
  unfold pd_read_csv, mbind, IO_bind, mret, IO_ret, try_except. rewrite Hfs.
  destruct (read_csv lines a (b - a - 1)) as [df|e]; simpl;
    (eexists; split; [reflexivity|]; split;
     [repeat constructor; apply is_csv_read_intro|]; split; [simpl; lia | done]).
Qed.

(** The parse of a readable file in closed form: one [readlines], then the
    reads of [pandas], and always a result. *)
Lemma parse_kovaaks_csv_closed path lines :
  fs path = Ok lines ->
  exists t,
    parse_kovaaks_csv fs read_csv path =
      (IoReadlines path :: t,
       Ok (main_table_of read_csv lines (find_boundaries lines).1,
           weapon_table_of read_csv lines (find_boundaries lines).1 (find_boundaries lines).2,
           parse_stats lines (find_boundaries lines).2)) /\
    Forall (is_csv_read path) t /\ (length t <= 4)%nat /\
    ((find_boundaries lines).1 = None -> t = []).
Proof.
  intros Hfs. unfold parse_kovaaks_csv, readlines.
  destruct (find_boundaries lines) as [s1 s2] eqn:Hb; simpl.
  destruct (parse_main_table_closed path lines s1 Hfs) as (t1 & E1 & F1 & L1 & N1).
  destruct (parse_weapon_table_closed path lines s1 s2 Hfs) as (t2 & E2 & F2 & L2 & N2).
  exists (t1 ++ t2). unfold mbind, IO_bind at 1. rewrite Hfs, Hb.
  unfold mbind, IO_bind, mret, IO_ret. rewrite E1, E2. simpl.
  rewrite app_nil_r. repeat split.
  - by apply Forall_app.
  - rewrite length_app. lia.
  - intros ->. by rewrite N1, N2 by auto.
Qed.

Lemma parse_kovaaks_csv_unreadable path e :
  fs path = Raise e ->
  parse_kovaaks_csv fs read_csv path = ([IoReadlines path], Raise e).
Proof.
  intros Hfs. unfold parse_kovaaks_csv, readlines, mbind, IO_bind. by rewrite Hfs.
Qed.

End ParserFacts.

(** ** Text lemmas *)

Lemma contains_lstrip_by p c s :
  p c = false -> contains c (lstrip_by p s) = contains c s.
Proof.
  intros Hc. induction s as [|d r IH]; simpl; [done|].
  destruct (p d) eqn:Hd; simpl; [|done].
  rewrite IH. destruct (Ascii.eqb_spec d c) as [->|]; [congruence|done].
Qed.

Lemma contains_rstrip_by p c s :
  p c = false -> contains c (rstrip_by p s) = contains c s.
Proof.
  intros Hc. induction s as [|d r IH]; simpl; [done|].
  destruct (p d && is_empty (rstrip_by p r)) eqn:E; simpl.
  - apply andb_true_iff in E as [Hd He]. rewrite <- IH.
    destruct (rstrip_by p r); [|done]. simpl.
    destruct (Ascii.eqb_spec d c) as [->|]; [congruence|done].
  - by rewrite IH.
Qed.

Lemma contains_strip c s : isspace c = false -> contains c (strip s) = contains c s.
Proof.
  intros Hc. unfold strip, strip_by.
  by rewrite contains_rstrip_by, contains_lstrip_by.
Qed.

Lemma contains_nonempty c s : contains c s = true -> is_empty s = false.
Proof. by destruct s. Qed.

Lemma split_once_contains c s :
  contains c s = true -> exists a b, split_once c s = Some (a, b).
Proof.
  induction s as [|d r IH]; simpl; [done|].
  destruct (Ascii.eqb d c); simpl; [by eexists _, _|].
  intros (a & b & ->)%IH. by eexists _, _.
Qed.

(** A line that holds a colon contributes an entry. *)
Lemma stats_entry_colon raw :
  contains ":" raw = true -> exists k v, stats_entry raw = Some (k, v).
Proof.
  intros Hc. unfold stats_entry.
  rewrite <- (contains_strip ":" raw) in Hc by done.
  rewrite Hc, (contains_nonempty _ _ Hc). simpl.
  destruct (split_once_contains _ _ Hc) as (a & b & ->). by eexists _, _.
Qed.

(** ** The stats map *)

Lemma foldl_stats_step_lookup ls : forall (d : gmap string pyval) k,
  foldl stats_step d ls !! k =
  match last_value k ls with
  | Some v => Some v
  | None => d !! k
  end.
Proof.
  induction ls as [|l rest IH]; intros d k; simpl; [done|].
  rewrite IH. destruct (last_value k rest); [done|].
  unfold stats_step. destruct (stats_entry l) as [[k' v]|]; [|done].
  destruct (decide (k' = k)) as [->|Hne].
  - by rewrite lookup_insert_eq.
  - by rewrite lookup_insert_ne.
Qed.

Lemma parse_stats_lookup lines s2 k :
  parse_stats lines (Some s2) !! k = last_value k (drop s2 lines).
Proof.
  unfold parse_stats. rewrite foldl_stats_step_lookup, lookup_empty.
  by destruct (last_value _ _).
Qed.

Lemma last_value_elem k v ls raw :
  raw ∈ ls -> stats_entry raw = Some (k, v) -> is_Some (last_value k ls).
Proof.
  induction ls as [|l rest IH]; intros Hin He; [by apply elem_of_nil in Hin|].
  simpl. apply elem_of_cons in Hin as [->|Hin].
  - destruct (last_value k rest); [done|]. rewrite He.
    by rewrite decide_True.
  - destruct (IH Hin He) as [w ->]. done.
Qed.

(** ** Claims about one file *)

(** C6. In a file whose scan sets no [section1_end] (no [Weapon,] line up
    to the first [Kills:,] line), the event table and the weapon table are
    both the empty frame, with no column, and no tabular parse is attempted;
    the stats map is still built from the lines from [section2_end] on: each
    of these lines that holds a colon has its key in the map, and every key
    holds the value of the last line that gives it. *)
Theorem no_weapon_line_empty_tables_stats_kept
    (fs : string -> result (list string))
    (read_csv : list string -> nat -> nat -> result DataFrame)
    (path : string) (lines : list string) :
  fs path = Ok lines ->
  (find_boundaries lines).1 = None ->
  parse_kovaaks_csv fs read_csv path =
    ([IoReadlines path],
     Ok (DataFrame_empty, DataFrame_empty,
         parse_stats lines (find_boundaries lines).2)) /\
  forall s2, (find_boundaries lines).2 = Some s2 ->
    (forall k, parse_stats lines (Some s2) !! k = last_value k (drop s2 lines)) /\
    (forall i raw, (s2 <= i)%nat -> lines !! i = Some raw ->
       contains ":" raw = true ->
       exists k v, stats_entry raw = Some (k, v) /\
                   is_Some (parse_stats lines (Some s2) !! k)).
Proof.
  intros Hfs Hs1.
  destruct (parse_kovaaks_csv_closed fs read_csv path lines Hfs) as (t & E & _ & _ & Ht).
  rewrite (Ht Hs1) in E. rewrite E, Hs1. split; [done|].
  intros s2 Hs2. split; [intros k; apply parse_stats_lookup|].
  intros i raw Hi Hraw Hc.
  destruct (stats_entry_colon raw Hc) as (k & v & He).
  exists k, v. split; [done|]. rewrite parse_stats_lookup.
  apply (last_value_elem k v _ raw); [|done].
  apply list_elem_of_lookup. exists (i - s2)%nat.
  rewrite lookup_drop. by replace (s2 + (i - s2))%nat with i by lia.
Qed.

(** *** Sample files *)

Lemma no_weapon_line_witness :
  parse_kovaaks_csv (one_file "a.csv" stats_only_file) Pandas.read_csv "a.csv" =
    ([IoReadlines "a.csv"],
     Ok (DataFrame_empty, DataFrame_empty,
         parse_stats stats_only_file (find_boundaries stats_only_file).2)) /\
  forall s2, (find_boundaries stats_only_file).2 = Some s2 ->
    (forall k, parse_stats stats_only_file (Some s2) !! k =
               last_value k (drop s2 stats_only_file)) /\
    (forall i raw, (s2 <= i)%nat -> stats_only_file !! i = Some raw ->
       contains ":" raw = true ->
       exists k v, stats_entry raw = Some (k, v) /\
                   is_Some (parse_stats stats_only_file (Some s2) !! k)).
Proof.
  exact (no_weapon_line_empty_tables_stats_kept
           (one_file "a.csv" stats_only_file) Pandas.read_csv "a.csv"
           stats_only_file eq_refl eq_refl).
Defined.

(** *** The row limit of [pandas.read_csv] *)

Lemma read_records_from_length width total ls rs :
  Pandas.read_records_from width total ls = Ok rs -> length rs = length ls.
Proof.
  revert rs. induction ls as [|l rest IH]; intros rs; simpl.
  - by intros [= <-].
  - destruct (total <? length _)%nat; [done|].
    destruct (Pandas.read_records_from width total rest) as [rs'|e]; [|done].
    intros [= <-]. simpl. by rewrite (IH rs').
Qed.

Lemma read_records_length width ls rs :
  Pandas.read_records width ls = Ok rs -> length rs = length ls.
Proof. apply read_records_from_length. Qed.

Lemma pandas_read_csv_nrows lines skiprows nrows df :
  Pandas.read_csv lines skiprows nrows = Ok df -> (df_len df <= nrows)%nat.
Proof.
  unfold Pandas.read_csv, df_len.
  destruct (List.filter _ _) as [|header body]; [done|].
  destruct (Pandas.read_records _ _) as [rs|e] eqn:E; [|done].
  intros [= <-]. simpl. rewrite (read_records_length _ _ _ E), length_take. lia.
Qed.

Lemma pandas_read_csv_nrows0 lines skiprows df :
  Pandas.read_csv lines skiprows 0 = Ok df -> rows df = [].
Proof.
  intros H%pandas_read_csv_nrows. apply nil_length_inv. unfold df_len in H. lia.
Qed.

(** A first record with more fields than the header does not fail: in
    [malformed_file] each table has one row, whose leading field is the row
    label and whose other fields stand under the columns. *)
Lemma first_record_wider_gives_row_labels :
  (fun '(m, w, _) => (m, w)) <$>
    returned (parse_kovaaks_csv (one_file "a.csv" malformed_file)
                Pandas.read_csv "a.csv") =
    Some (mkDataFrame ["Kill #"; "Bot"] [[Some "target"; Some "extra"]],
          mkDataFrame ["Weapon"; "Shots"] [[Some "41"; Some "9"]]).
Proof. vm_compute. reflexivity. Qed.

(** C5, as stated, fails: in [wide_record_file] the tabular parse of the
    event section raises (the second record has more fields than the
    first), and the event table that the parse returns is not the empty
    frame: it has the two columns of the header (and no row).  The weapon
    section fails in the same way and its table is the empty frame. *)
Lemma failed_event_parse_keeps_header :
  find_boundaries wide_record_file = (Some 3%nat, Some 6%nat) /\
  (exists e, Pandas.read_csv wide_record_file 0 (3 - 1) = Raise e) /\
  (exists e, Pandas.read_csv wide_record_file 3 (6 - 3 - 1) = Raise e) /\
  (fun '(m, w, _) => (m, w)) <$>
    returned (parse_kovaaks_csv (one_file "a.csv" wide_record_file)
                Pandas.read_csv "a.csv") =
    Some (mkDataFrame ["Kill #"; "Bot"] [], DataFrame_empty) /\
  mkDataFrame ["Kill #"; "Bot"] [] <> DataFrame_empty.
Proof.
  split; [reflexivity|]. split; [by eexists|]. split; [by eexists|].
  split; [vm_compute; reflexivity|discriminate].
Qed.

(** C5, amended. On a file that can be read, the parse of one file raises
    nothing, whatever the content.  When the tabular parse of the event
    section raises, the event table is what the read of the header alone
    (row limit 0) gives: a table that keeps the columns of the header and
    has no row; it is the empty frame only when that read raises too.  When
    the tabular parse of the weapon section raises, the weapon table is the
    empty frame.  Each section is parsed whether or not another failed, and
    the three are returned.  The parser of tables is any function that
    honours a row limit of 0. *)
Theorem parse_recovers_from_table_failures
    (fs : string -> result (list string))
    (read_csv : list string -> nat -> nat -> result DataFrame)
    (path : string) (lines : list string) :
  fs path = Ok lines ->
  (forall ls k df, read_csv ls k 0%nat = Ok df -> rows df = []) ->
  exists t main_df weapon_df,
    parse_kovaaks_csv fs read_csv path =
      (t, Ok (main_df, weapon_df, parse_stats lines (find_boundaries lines).2)) /\
    main_df = main_table_of read_csv lines (find_boundaries lines).1 /\
    weapon_df =
      weapon_table_of read_csv lines (find_boundaries lines).1 (find_boundaries lines).2 /\
    (forall s1 e, (find_boundaries lines).1 = Some s1 -> (0 < s1)%nat ->
       read_csv lines 0%nat (s1 - 1)%nat = Raise e ->
       rows main_df = [] /\
       (forall df, read_csv lines 0%nat 0%nat = Ok df -> main_df = df) /\
       (forall e', read_csv lines 0%nat 0%nat = Raise e' -> main_df = DataFrame_empty)) /\
    (forall s1 s2 e, (find_boundaries lines).1 = Some s1 ->
       (find_boundaries lines).2 = Some s2 ->
       read_csv lines s1 (s2 - s1 - 1)%nat = Raise e ->
       weapon_df = DataFrame_empty).
Proof.
  intros Hfs Hzero.
  destruct (parse_kovaaks_csv_closed fs read_csv path lines Hfs) as (t & E & _).
  eexists _, _, _. split; [exact E|]. split; [done|]. split; [done|]. split.
  - intros s1 e -> Hpos Hraise. unfold main_table_of.
    apply Nat.ltb_lt in Hpos. rewrite Hpos, Hraise. unfold header_or_empty.
    destruct (read_csv lines 0%nat 0%nat) as [df|e0] eqn:E0.
    + split; [by apply (Hzero lines 0%nat)|]. split; [by intros ? [= ->]|done].
    + split; [done|]. split; [done|by intros].
  - intros s1 s2 e -> -> Hraise. unfold weapon_table_of. by rewrite Hraise.
Qed.

Lemma parse_recovers_witness :
  exists t main_df weapon_df,
    parse_kovaaks_csv (one_file "a.csv" wide_record_file) Pandas.read_csv "a.csv" =
      (t, Ok (main_df, weapon_df,
              parse_stats wide_record_file (find_boundaries wide_record_file).2)) /\
    main_df = mkDataFrame ["Kill #"; "Bot"] [] /\
    weapon_df = DataFrame_empty.
Proof.
  destruct (parse_recovers_from_table_failures
              (one_file "a.csv" wide_record_file) Pandas.read_csv "a.csv"
              wide_record_file eq_refl pandas_read_csv_nrows0)
    as (t & m & w & E & Hm & Hw & _).
  exists t, m, w. split; [exact E|]. split; [by rewrite Hm|by rewrite Hw].
Defined.

(** C2, as stated, fails: the file is read three times here, once by
    [readlines] and once by [pandas] for each of the two tables. *)
Lemma file_read_more_than_once :
  io_events (parse_kovaaks_csv (one_file "a.csv" three_section_file)
                               Pandas.read_csv "a.csv") =
    [IoReadlines "a.csv"; IoReadCsv "a.csv" 0 1; IoReadCsv "a.csv" 2 1] /\
  count_reads "a.csv"
    (io_events (parse_kovaaks_csv (one_file "a.csv" three_section_file)
                                  Pandas.read_csv "a.csv")) <> 1%nat.
Proof. split; [reflexivity|]. vm_compute. discriminate. Qed.

(** C2, amended. The parse of one file begins by reading all the lines of
    the file, once, before any section is parsed; the two boundaries and the
    stats map are computed from these lines in memory.  The event table and
    the weapon table are not: each is parsed by [pandas] reading the file
    again, at most four more reads in all, and none when [section1_end] is
    not set. *)
Theorem lines_read_once_tables_reread
    (fs : string -> result (list string))
    (read_csv : list string -> nat -> nat -> result DataFrame)
    (path : string) :
  exists t,
    io_events (parse_kovaaks_csv fs read_csv path) = IoReadlines path :: t /\
    Forall (is_csv_read path) t /\ (length t <= 4)%nat /\
    (forall lines, fs path = Ok lines ->
       ((find_boundaries lines).1 = None -> t = []) /\
       exists main_df weapon_df,
         io_result (parse_kovaaks_csv fs read_csv path) =
           Ok (main_df, weapon_df, parse_stats lines (find_boundaries lines).2)).
Proof.
  destruct (fs path) as [lines|e] eqn:Hfs.
  - destruct (parse_kovaaks_csv_closed fs read_csv path lines Hfs)
      as (t & E & F & L & N).
    exists t. rewrite E. simpl. split; [done|]. split; [done|]. split; [done|].
    intros ? [= <-]. split; [done|]. by eexists _, _.
  - exists []. rewrite (parse_kovaaks_csv_unreadable fs read_csv path e Hfs).
    simpl. split; [done|]. split; [constructor|]. split; [lia|]. by intros.
Qed.

(** ** Numeric coercion of stats values *)

Lemma stats_value_unfold raw :
  stats_value raw =
  if is_empty (clean_value raw) then VStr (clean_value raw)
  else if contains "." (clean_value raw) then
    match py_float (clean_value raw) with
    | Some f => VFloat f
    | None => VStr (clean_value raw)
    end
  else
    match py_int (clean_value raw) with
    | Some n => VInt n
    | None => VStr (clean_value raw)
    end.
Proof. reflexivity. Qed.

Lemma isdigit_not_comma c : isdigit c = true -> Ascii.eqb c "," = false.
Proof. by destruct c as [[] [] [] [] [] [] [] []]. Qed.

(** Digits with single underscores between them hold no comma. *)
Lemma digits_after_no_comma_bounded k : forall s acc n r,
  (String.length s <= k)%nat ->
  digits_after acc n s = Some r -> contains "," s = false.
Proof.
  induction k as [|k IH]; intros [|c s] acc n r Hlen; simpl in *; try done; [lia|].
  destruct (isdigit c) eqn:Hd.
  - intros Hs. rewrite (IH s _ _ _ ltac:(lia) Hs).
    by rewrite isdigit_not_comma.
  - destruct (Ascii.eqb_spec c "_") as [->|]; [|done].
    destruct s as [|d s']; [done|]. destruct (isdigit d) eqn:Hd'; [|done].
    intros Hs. simpl in *. rewrite (IH s' _ _ _ ltac:(lia) Hs).
    by rewrite isdigit_not_comma.
Qed.

Lemma digitpart_no_comma s r : digitpart s = Some r -> contains "," s = false.
Proof.
  destruct s as [|c s]; simpl; [done|]. destruct (isdigit c) eqn:Hd; [|done].
  intros Hs. rewrite (digits_after_no_comma_bounded _ s _ _ _ (le_n _) Hs).
  by rewrite isdigit_not_comma.
Qed.

Lemma split_sign_comma s : contains "," (split_sign s).2 = contains "," s.
Proof.
  destruct s as [|c s]; [done|].
  by destruct c as [[] [] [] [] [] [] [] []].
Qed.

Lemma py_int_no_comma s n : py_int s = Some n -> contains "," s = false.
Proof.
  unfold py_int. rewrite <- (contains_strip "," s), <- split_sign_comma by done.
  destruct (split_sign (strip s)) as [neg body]; simpl.
  destruct (digitpart body) as [[v k]|] eqn:E; [|done].
  intros _. by apply digitpart_no_comma in E.
Qed.

Lemma split_once_comma s a b :
  split_once "." s = Some (a, b) ->
  contains "," s = contains "," a || contains "," b.
Proof.
  revert a. induction s as [|c s IH]; intros a; simpl; [done|].
  destruct (Ascii.eqb_spec c ".") as [->|Hc].
  - by intros [= <- <-].
  - destruct (split_once "." s) as [[a' b']|]; [|done].
    intros [= <- <-]. simpl. by rewrite (IH a' eq_refl), orb_assoc.
Qed.

Lemma number_no_comma s r : number s = Some r -> contains "," s = false.
Proof.
  unfold number. destruct (split_once "." s) as [[ip fp]|] eqn:E.
  - rewrite (split_once_comma _ _ _ E).
    destruct ip as [|c ip], fp as [|d fp]; simpl is_empty; cbv iota; try done.
    + intros Ef. by rewrite (digitpart_no_comma _ _ Ef).
    + destruct (digitpart (String c ip)) as [[v k]|] eqn:Ei; [|done].
      intros _. by rewrite (digitpart_no_comma _ _ Ei).
    + destruct (digitpart (String c ip)) as [[v k]|] eqn:Ei; [|done].
      destruct (digitpart (String d fp)) as [[w j]|] eqn:Ef; [|done].
      intros _. by rewrite (digitpart_no_comma _ _ Ei), (digitpart_no_comma _ _ Ef).
  - destruct (digitpart s) as [[v k]|] eqn:Ei; [|done].
    intros _. by apply digitpart_no_comma in Ei.
Qed.

Lemma exponent_no_comma s e : exponent s = Some e -> contains "," s = false.
Proof.
  unfold exponent. rewrite <- split_sign_comma.
  destruct (split_sign s) as [neg body]; simpl.
  destruct (digitpart body) as [[v k]|] eqn:E; [|done].
  intros _. by apply digitpart_no_comma in E.
Qed.

Lemma split_exponent_comma s :
  contains "," s =
  contains "," (split_exponent s).1 ||
  match (split_exponent s).2 with Some e => contains "," e | None => false end.
Proof.
  induction s as [|c s IH]; simpl; [done|].
  destruct (is_e c) eqn:Hc; simpl.
  - by destruct c as [[] [] [] [] [] [] [] []].
  - destruct (split_exponent s) as [a b]; simpl in *.
    by rewrite IH, orb_assoc.
Qed.

Lemma floatnumber_no_comma neg s f :
  floatnumber neg s = Some f -> contains "," s = false.
Proof.
  unfold floatnumber. rewrite (split_exponent_comma s).
  destruct (split_exponent s) as [mant ex]; simpl.
  destruct (number mant) as [[m k]|] eqn:Em; [|done].
  rewrite (number_no_comma _ _ Em). simpl.
  destruct ex as [et|]; [|done].
  destruct (exponent et) as [e|] eqn:Ee; [|done].
  intros _. by apply exponent_no_comma in Ee.
Qed.

Lemma lower_comma c : Ascii.eqb (lower c) "," = Ascii.eqb c ",".
Proof. by destruct c as [[] [] [] [] [] [] [] []]. Qed.

Lemma lower_str_comma s : contains "," (lower_str s) = contains "," s.
Proof. induction s as [|c s IH]; simpl; [done|]. by rewrite IH, lower_comma. Qed.

Lemma py_float_no_comma s f : py_float s = Some f -> contains "," s = false.
Proof.
  unfold py_float. rewrite <- (contains_strip "," s), <- split_sign_comma by done.
  destruct (split_sign (strip s)) as [neg body]; simpl.
  rewrite <- (lower_str_comma body).
  destruct (String.eqb_spec (lower_str body) "inf") as [->|_]; [done|].
  destruct (String.eqb_spec (lower_str body) "infinity") as [->|_]; [done|].
  simpl. destruct (String.eqb_spec (lower_str body) "nan") as [->|_]; [done|].
  rewrite lower_str_comma. apply floatnumber_no_comma.
Qed.

(** A value that still holds a comma after the cleaning is kept as text. *)
Lemma stats_value_comma raw :
  contains "," (clean_value raw) = true ->
  stats_value raw = VStr (clean_value raw).
Proof.
  intros Hc. rewrite stats_value_unfold.
  destruct (is_empty (clean_value raw)); [done|].
  destruct (contains "." (clean_value raw)).
  - destruct (py_float (clean_value raw)) as [f|] eqn:E; [|done].
    apply py_float_no_comma in E. congruence.
  - destruct (py_int (clean_value raw)) as [n|] eqn:E; [|done].
    apply py_int_no_comma in E. congruence.
Qed.

Lemma binary64_half_value :
  exists q, float_value binary64_half = Some q /\
            QArith_base.Qeq q (QArith_base.Qmake 1 2).
Proof. eexists. split; [reflexivity|]. vm_compute. reflexivity. Qed.

(** C1, as stated, fails: the value [1,234] of a stats line is not stored
    as the integer 1234; its inner comma makes [int] raise, and the text is
    kept. *)
Lemma inner_comma_value_not_integer :
  clean_value "1,234," = "1,234" /\
  stats_value "1,234," <> VInt 1234 /\
  parse_stats three_section_file (Some 4%nat) !! "Score" <> Some (VInt 1234).
Proof. repeat split; vm_compute; discriminate. Qed.

(** C1, amended. A stats value is cleaned of surrounding white space and
    of leading and trailing commas only.  A cleaned value that still holds a
    comma, such as [1,234], is stored unchanged as text; [1234,] is stored
    as the integer 1234, [0.50,] as the float 0.5, and [N/A] unchanged as the
    text [N/A]. *)
Theorem stats_value_numeric_coercion :
  (forall raw, contains "," (clean_value raw) = true ->
               stats_value raw = VStr (clean_value raw)) /\
  stats_value "1,234," = VStr "1,234" /\
  stats_value "1234," = VInt 1234 /\
  stats_value "0.50," = VFloat binary64_half /\
  stats_value "N/A" = VStr "N/A" /\
  parse_stats three_section_file (Some 4%nat) !! "Score" = Some (VStr "1,234") /\
  parse_stats three_section_file (Some 4%nat) !! "Accuracy" = Some (VFloat binary64_half) /\
  parse_stats three_section_file (Some 4%nat) !! "Hash" = Some (VStr "N/A") /\
  parse_stats three_section_file (Some 4%nat) !! "Kills" = Some (VInt 33).
Proof.
  split; [exact stats_value_comma|].
  repeat split; vm_compute; reflexivity.
Qed.

(** ** The weapon table and the event table *)

(** C4 on [blank_separated_file]: the boundaries are 3 and 6, the range
    holds the header, one record and a blank line, yet the weapon table that
    the parse returns has two rows, the second read from line 6, the
    [Kills:,] line, outside the range: the blank line is skipped by [pandas]
    and does not count against the row limit [section2_end - section1_end - 1]. *)
Theorem weapon_table_reads_past_section2_end :
  find_boundaries blank_separated_file = (Some 3%nat, Some 6%nat) /\
  (exists t main_df stats,
     parse_kovaaks_csv (one_file "a.csv" blank_separated_file) Pandas.read_csv "a.csv" =
       (t, Ok (main_df,
               mkDataFrame ["Weapon"; "Shots"]
                           [[Some "pistol"; Some "41"]; [Some "Kills:"; Some "33"]],
               stats))) /\
  weapon_table_of_range blank_separated_file 3 6 =
    mkDataFrame ["Weapon"; "Shots"] [[Some "pistol"; Some "41"]].
Proof.
  split; [reflexivity|]. split; [|reflexivity].
  eexists _, _, _. vm_compute. reflexivity.
Qed.

(** C8 on [zero_event_file]: the event section holds the header line and
    no record, yet the event table that the parse returns has one row, read
    from the [Weapon,] line: the blank line that ends the section is skipped
    by [pandas] and does not count against the row limit [section1_end - 1]
    of line 55, and since the table then has a row, lines 57-59 do not read
    the header alone.  On [header_only_file], where the [Weapon,] line
    follows the header at once, the event table has the columns of the
    header and no row.  When [section1_end] is not set, or is 0, the event
    table is the empty frame, whatever the parser of tables. *)
Theorem zero_event_table_holds_weapon_line :
  find_boundaries zero_event_file = (Some 2%nat, Some 5%nat) /\
  (fun '(m, _, _) => m) <$>
    returned (parse_kovaaks_csv (one_file "a.csv" zero_event_file)
                Pandas.read_csv "a.csv") =
    Some (mkDataFrame ["Kill #"; "Timestamp"; "Bot"]
                      [[Some "Weapon"; Some "Shots"; None]]) /\
  (fun '(m, _, _) => m) <$>
    returned (parse_kovaaks_csv (one_file "a.csv" header_only_file)
                Pandas.read_csv "a.csv") =
    Some (mkDataFrame ["Kill #"; "Timestamp"; "Bot"] []) /\
  (forall (fs : string -> result (list string))
          (read_csv : list string -> nat -> nat -> result DataFrame)
          (path : string) (lines : list string),
     fs path = Ok lines ->
     (find_boundaries lines).1 = None \/ (find_boundaries lines).1 = Some 0%nat ->
     exists t weapon_df stats,
       parse_kovaaks_csv fs read_csv path = (t, Ok (DataFrame_empty, weapon_df, stats))).
Proof.
  split; [reflexivity|]. split; [vm_compute; reflexivity|].
  split; [vm_compute; reflexivity|].
  intros fs read_csv path lines Hfs Hs1.
  destruct (parse_kovaaks_csv_closed fs read_csv path _ Hfs) as (t & E & _).
  rewrite E. by destruct Hs1 as [-> | ->]; eexists _, _, _.
Qed.

(** ** The file name pattern *)

Lemma app_cons c a b : String c a +:+ b = String c (a +:+ b).
Proof. reflexivity. Qed.

Lemma app_empty_l b : "" +:+ b = b.
Proof. reflexivity. Qed.

Lemma contains_app c a b : contains c (a +:+ b) = contains c a || contains c b.
Proof.
  induction a as [|d a IH]; [done|].
  rewrite app_cons. simpl. by rewrite IH, orb_assoc.
Qed.

Lemma literal_spec lit s r : literal lit s = Some r <-> s = lit +:+ r.
Proof.
  revert s. induction lit as [|a lit IH]; intros s; simpl.
  - rewrite app_empty_l. split; congruence.
  - rewrite app_cons. destruct s as [|c s]; [done|].
    destruct (Ascii.eqb_spec a c) as [->|Hne].
    + rewrite IH. split; congruence.
    + split; [done|]. congruence.
Qed.

Lemma lstrip_by_decompose p s :
  exists w, s = w +:+ lstrip_by p s /\ all_chars p w = true.
Proof.
  induction s as [|c s (w & Hw & Hall)]; simpl.
  - by exists "".
  - destruct (p c) eqn:Hc.
    + exists (String c w). rewrite app_cons, <- Hw. simpl. by rewrite Hc, Hall.
    + by exists "".
Qed.

Lemma lstrip_by_app p w s :
  all_chars p w = true -> lstrip_by p (w +:+ s) = lstrip_by p s.
Proof.
  induction w as [|c w IH]; [done|]. simpl.
  intros [Hc Hw]%andb_true_iff. by rewrite Hc, IH.
Qed.

Lemma shape_spec t : forall s m r,
  shape t s = Some (m, r) -> s = m +:+ r /\ shape t m = Some (m, "").
Proof.
  induction t as [|a t IH]; intros s m r; simpl.
  - by intros [= <- <-].
  - destruct s as [|c s]; [done|].
    destruct (if Ascii.eqb a "d" then isdigit c else Ascii.eqb a c) eqn:Hc; [|done].
    destruct (shape t s) as [[m' r']|] eqn:E; [|done].
    intros [= <- <-]. destruct (IH _ _ _ E) as [-> Hm].
    rewrite app_cons. simpl. by rewrite Hc, Hm.
Qed.

Lemma shape_app t : forall m r,
  shape t m = Some (m, "") -> shape t (m +:+ r) = Some (m, r).
Proof.
  induction t as [|a t IH]; intros m r; simpl.
  - by intros [= <-].
  - destruct m as [|c m]; [done|]. simpl.
    destruct (if Ascii.eqb a "d" then isdigit c else Ascii.eqb a c); [|done].
    destruct (shape t m) as [[m' r']|] eqn:E; [|done].
    intros [= -> ->]. by rewrite (IH _ r E).
Qed.

Lemma match_tail_sound s ts :
  match_tail s = Some ts -> exists rest, loose_tail s ts rest.
Proof.
  unfold match_tail, skip_spaces. intros H.
  apply bind_Some in H as (s1 & L1%literal_spec & H).
  apply bind_Some in H as (s2 & L2%literal_spec & H).
  apply bind_Some in H as (s3 & L3%literal_spec & H).
  apply bind_Some in H as ([ts' s4] & [L4 Hts]%shape_spec & H).
  apply bind_Some in H as (s5 & L5%literal_spec & [= <-]).
  destruct (lstrip_by_decompose isspace s) as (w1 & E1 & H1).
  destruct (lstrip_by_decompose isspace s1) as (w2 & E2 & H2).
  destruct (lstrip_by_decompose isspace s2) as (w3 & E3 & H3).
  destruct (lstrip_by_decompose isspace s3) as (w4 & E4 & H4).
  destruct (lstrip_by_decompose isspace s4) as (w5 & E5 & H5).
  exists s5, w1, w2, w3, w4, w5. repeat split; try done.
  rewrite <- L5, <- E5, <- L4, <- E4, <- L3, <- E3, <- L2, <- E2, <- L1. exact E1.
Qed.

Lemma lstrip_by_keep p c a s :
  p c = false -> lstrip_by p (String c a +:+ s) = String c a +:+ s.
Proof. intros Hc. simpl. by rewrite Hc. Qed.

Lemma isdigit_not_space c : isdigit c = true -> isspace c = false.
Proof. by destruct c as [[] [] [] [] [] [] [] []]. Qed.

Lemma timestamp_head ts :
  shape timestamp_shape ts = Some (ts, "") ->
  exists c r, ts = String c r /\ isspace c = false.
Proof.
  destruct ts as [|c r]; [done|]. simpl.
  destruct (isdigit c) eqn:Hc; [|done]. intros _.
  exists c, r. split; [done|]. by apply isdigit_not_space.
Qed.

Lemma bind_some_l {A B : Type} (x : A) (f : A -> option B) : Some x ≫= f = f x.
Proof. reflexivity. Qed.

Lemma match_tail_complete s ts rest : loose_tail s ts rest -> match_tail s = Some ts.
Proof.
  intros (w1 & w2 & w3 & w4 & w5 & -> & H1 & H2 & H3 & H4 & H5 & Hts).
  destruct (timestamp_head ts Hts) as (c & r & Ets & Hc).
  unfold match_tail, skip_spaces.
  rewrite (lstrip_by_app _ w1), (lstrip_by_keep _ "-") by done.
  rewrite (proj2 (literal_spec "-" _ _) eq_refl), bind_some_l.
  rewrite (lstrip_by_app _ w2), (lstrip_by_keep _ "C") by done.
  rewrite (proj2 (literal_spec "Challenge" _ _) eq_refl), bind_some_l.
  rewrite (lstrip_by_app _ w3), (lstrip_by_keep _ "-") by done.
  rewrite (proj2 (literal_spec "-" _ _) eq_refl), bind_some_l.
  rewrite (lstrip_by_app _ w4) by done.
  rewrite Ets at 1. rewrite (lstrip_by_keep _ c) by done.
  rewrite <- Ets, (shape_app _ _ _ Hts), bind_some_l.
  rewrite (lstrip_by_app _ w5), (lstrip_by_keep _ "S") by done.
  by rewrite (proj2 (literal_spec "Stats.csv" _ _) eq_refl).
Qed.

(** What [re.match] returns, and when: group 1 holds no line feed, the
    loose form follows it, and group 2 is the timestamp of that form. *)
Lemma re_match_filename_sound s g ts :
  re_match_filename s = Some (g, ts) ->
  exists tail rest,
    s = g +:+ tail /\ loose_tail tail ts rest /\ contains "010" g = false.
Proof.
  revert g. induction s as [|c s IH]; intros g; simpl.
  - done.
  - destruct (match_tail (String c s)) as [ts'|] eqn:E.
    + intros [= <- <-]. destruct (match_tail_sound _ _ E) as [rest Hl].
      by exists (String c s), rest.
    + destruct (Ascii.eqb c "010") eqn:Hc; [done|].
      destruct (re_match_filename s) as [[g' ts']|]; [|done].
      intros [= <- <-]. destruct (IH g' eq_refl) as (tail & rest & -> & Hl & Hg).
      exists tail, rest. repeat split; [done|]. simpl.
      by rewrite Hg, orb_false_r.
Qed.

Lemma re_match_filename_complete g tail ts rest :
  loose_tail tail ts rest -> contains "010" g = false ->
  is_Some (re_match_filename (g +:+ tail)).
Proof.
  intros Hl%match_tail_complete. induction g as [|c g IH]; simpl.
  - intros _. destruct tail as [|c t]; [by vm_compute in Hl|].
    simpl. by rewrite Hl.
  - intros [Hc Hg]%orb_false_iff.
    destruct (match_tail (String c (g +:+ tail))); [done|].
    rewrite Hc. by destruct (IH Hg) as [[g' ts'] ->].
Qed.

(** ** The indices *)

Lemma dd_lookup2_setitem2 {V : Type} (d : defaultdict (defaultdict V)) k1 k2 v :
  dd_lookup2 (dd_setitem2 d k1 k2 v) k1 k2 = Some v.
Proof.
  unfold dd_lookup2, dd_setitem2, dd_getitem, dd_setitem.
  destruct (dd_items d !! k1) as [inner|]; simpl;
    rewrite lookup_insert_eq; simpl; by rewrite lookup_insert_eq.
Qed.

Lemma index_wf_setitem2 {V : Type} (dv : V) d k1 k2 v :
  index_wf dv d -> index_wf dv (dd_setitem2 d k1 k2 v).
Proof.
  intros [Hd Hin]. unfold dd_setitem2, dd_getitem, dd_setitem.
  destruct (dd_items d !! k1) as [inner|] eqn:E; simpl; (split; [done|]); simpl.
  - intros k i. destruct (decide (k1 = k)) as [<-|Hne].
    + rewrite lookup_insert_eq. intros [= <-]. simpl. by apply (Hin k1).
    + rewrite lookup_insert_ne by done. apply Hin.
  - intros k i. destruct (decide (k1 = k)) as [<-|Hne].
    + rewrite lookup_insert_eq. intros [= <-]. simpl. by rewrite Hd.
    + rewrite lookup_insert_ne by done.
      rewrite lookup_insert_ne by done. apply Hin.
Qed.

Lemma index_wf_auto_vivifying {V : Type} (dv : V) d :
  index_wf dv d -> auto_vivifying dv d.
Proof.
  intros [Hd Hin]. split.
  - intros task Hmiss. unfold dd_getitem. by rewrite Hmiss, Hd.
  - intros task date. unfold dd_lookup2, dd_getitem2, dd_getitem, dd_setitem.
    destruct (dd_items d !! task) as [inner|] eqn:E; simpl.
    + intros Hmiss. rewrite Hmiss. simpl. rewrite lookup_insert_eq. simpl.
      rewrite lookup_insert_eq. by rewrite (Hin _ _ E).
    + intros _. rewrite Hd. simpl. rewrite lookup_empty. simpl.
      rewrite lookup_insert_eq. simpl. by rewrite lookup_insert_eq.
Qed.

Lemma index_wf_new_table : index_wf DataFrame_empty new_table_index.
Proof. split; [done|]. intros k i. cbn. by rewrite lookup_empty. Qed.

Lemma index_wf_new_stats : index_wf (∅ : gmap string pyval) new_stats_index.
Proof. split; [done|]. intros k i. cbn. by rewrite lookup_empty. Qed.

(** ** The loop over the directory *)

Section AggregatorFacts.

Variable fs : string -> result (list string).
Variable read_csv : list string -> nat -> nat -> result DataFrame.

Lemma process_file_skipped dir st name :
  endswith name ".csv" = false \/ re_match_filename name = None ->
  process_file fs read_csv dir st name = ([], Ok st).
Proof.
  unfold process_file. intros [-> | H]; [done|].
  rewrite H. by destruct (endswith name ".csv").
Qed.

Lemma process_file_parsed dir st name g1 g2 t m w s :
  endswith name ".csv" = true -> re_match_filename name = Some (g1, g2) ->
  parse_kovaaks_csv fs read_csv (os_path_join dir name) = (t, Ok (m, w, s)) ->
  process_file fs read_csv dir st name =
    (t ++ progress_events (S (processed st)),
     Ok (record_file st (strip g1) g2 m w s)).
Proof.
  intros He Hm Hp. unfold process_file. rewrite He, Hm, Hp.
  unfold progress_events, mbind, IO_bind, mret, IO_ret, try_except, print.
  destruct (S (processed st) mod 10 =? 0)%nat; simpl; by rewrite ?app_nil_r.
Qed.

Lemma process_file_failed dir st name g1 g2 t e :
  endswith name ".csv" = true -> re_match_filename name = Some (g1, g2) ->
  parse_kovaaks_csv fs read_csv (os_path_join dir name) = (t, Raise e) ->
  process_file fs read_csv dir st name = (t ++ [error_event name e], Ok st).
Proof.
  intros He Hm Hp. unfold process_file. rewrite He, Hm, Hp.
  by unfold mbind, IO_bind, mret, IO_ret, try_except, print.
Qed.

(** One iteration never raises, and keeps the indices well formed. *)
Lemma process_file_total dir st name :
  exists t st', process_file fs read_csv dir st name = (t, Ok st') /\
                (indices_wf st -> indices_wf st').
Proof.
  destruct (endswith name ".csv") eqn:He;
    [|eexists _, _; split; [apply process_file_skipped; by left|done]].
  destruct (re_match_filename name) as [[g1 g2]|] eqn:Hm;
    [|eexists _, _; split; [apply process_file_skipped; by right|done]].
  destruct (parse_kovaaks_csv fs read_csv (os_path_join dir name))
    as [t [[[m w] s]|e]] eqn:Hp.
  - eexists _, _. split; [by eapply process_file_parsed|].
    intros (H1 & H2 & H3). repeat split; simpl;
      try (by apply index_wf_setitem2); by apply index_wf_setitem2.
  - eexists _, _. split; [by eapply process_file_failed|done].
Qed.

Lemma process_files_total dir names : forall st,
  exists t st', process_files fs read_csv dir st names = (t, Ok st') /\
                (indices_wf st -> indices_wf st').
Proof.
  induction names as [|name rest IH]; intros st; simpl.
  - by eexists _, _.
  - destruct (process_file_total dir st name) as (t1 & st1 & E1 & W1).
    destruct (IH st1) as (t2 & st2 & E2 & W2).
    exists (t1 ++ t2), st2. unfold mbind, IO_bind. rewrite E1, E2. auto.
Qed.

End AggregatorFacts.

Section LoadFacts.

Variable fs : string -> result (list string).
Variable read_csv : list string -> nat -> nat -> result DataFrame.

(** The whole run in closed form, from the run of the loop. *)
Lemma load_closed listdir dir names t st :
  listdir dir = Ok names ->
  process_files fs read_csv dir initial_indices names = (t, Ok st) ->
  load_all_kovaaks_data fs read_csv listdir dir =
    (IoListdir dir :: t ++
       [IoPrint (nl +:+ "Total files processed: " +:+ string_of_nat (processed st));
        IoPrint ("Unique tasks: " +:+ string_of_nat (dd_len (main_data st)))],
     Ok (main_data st, weapon_data st, stats_data st)).
Proof.
  intros Hl Hp. unfold load_all_kovaaks_data, mbind, IO_bind, mret, IO_ret, print.
  by rewrite Hl, Hp.
Qed.

(** A candidate whose parse raises leaves the loop where it would be
    without that entry, but for the events of the attempt and the line of
    the error. *)
Lemma process_files_failed_entry dir name g1 g2 tp e post :
  endswith name ".csv" = true -> re_match_filename name = Some (g1, g2) ->
  parse_kovaaks_csv fs read_csv (os_path_join dir name) = (tp, Raise e) ->
  forall pre st, exists t1 t2 st',
    process_files fs read_csv dir st (pre ++ name :: post) =
      (t1 ++ (tp ++ [error_event name e]) ++ t2, Ok st') /\
    process_files fs read_csv dir st (pre ++ post) = (t1 ++ t2, Ok st').
Proof.
  intros He Hm Hp. induction pre as [|p pre IH]; intros st; simpl.
  - destruct (process_files_total fs read_csv dir post st) as (t2 & st' & E & _).
    exists [], t2, st'. unfold mbind, IO_bind.
    by rewrite (process_file_failed fs read_csv dir st name g1 g2 tp e He Hm Hp), E.
  - destruct (process_file_total fs read_csv dir st p) as (t0 & st0 & E0 & _).
    destruct (IH st0) as (t1 & t2 & st' & E1 & E2).
    exists (t0 ++ t1), t2, st'. unfold mbind, IO_bind.
    rewrite E0, E1, E2. by rewrite <- !app_assoc.
Qed.

(** A run over a directory that can be listed returns its three indices. *)
Lemma load_total listdir dir names :
  listdir dir = Ok names ->
  exists m w s,
    io_result (load_all_kovaaks_data fs read_csv listdir dir) = Ok (m, w, s).
Proof.
  intros Hl.
  destruct (process_files_total fs read_csv dir names initial_indices)
    as (t & st & Hp & _).
  rewrite (load_closed listdir dir names t st Hl Hp). by eexists _, _, _.
Qed.

End LoadFacts.

(** C9. When the read or the parse of a candidate file raises, that
    iteration prints one line with the file name and the message of the
    exception and leaves the three indices as they were; the loop goes on
    with the next entry and the run raises nothing: what it returns is what
    it returns for the same directory without that entry. *)
Theorem failing_file_logged_and_skipped
    (fs : string -> result (list string))
    (read_csv : list string -> nat -> nat -> result DataFrame)
    (dir : string) (pre : list string) (name : string) (post : list string)
    (g1 g2 : string) (e : exn) :
  endswith name ".csv" = true ->
  re_match_filename name = Some (g1, g2) ->
  io_result (parse_kovaaks_csv fs read_csv (os_path_join dir name)) = Raise e ->
  (forall st, exists t,
     process_file fs read_csv dir st name = (t ++ [error_event name e], Ok st)) /\
  exists r,
    io_result (load_all_kovaaks_data fs read_csv (fun _ => Ok (pre ++ name :: post)) dir)
      = Ok r /\
    io_result (load_all_kovaaks_data fs read_csv (fun _ => Ok (pre ++ post)) dir)
      = Ok r /\
    error_event name e ∈
      io_events (load_all_kovaaks_data fs read_csv (fun _ => Ok (pre ++ name :: post)) dir).
Proof.
  intros He Hm Hp.
  destruct (parse_kovaaks_csv fs read_csv (os_path_join dir name)) as [tp r] eqn:E.
  simpl in Hp. subst r. split.
  - intros st. exists tp. by eapply process_file_failed.
  - destruct (process_files_failed_entry fs read_csv dir name g1 g2 tp e post
                He Hm E pre initial_indices) as (t1 & t2 & st' & E1 & E2).
    exists (main_data st', weapon_data st', stats_data st').
    rewrite (load_closed fs read_csv _ dir _ _ _ eq_refl E1).
    rewrite (load_closed fs read_csv _ dir _ _ _ eq_refl E2).
    split; [done|]. split; [done|]. simpl.
    apply elem_of_cons. right. rewrite !elem_of_app. left. right. left. right.
    apply list_elem_of_singleton. done.
Qed.

Lemma failing_file_witness :
  (exists r,
     io_result sample_run = Ok r /\
     io_result (load_all_kovaaks_data sample_fs Pandas.read_csv
                  (fun _ => Ok [close_range_1; close_range_2; tile_frenzy_1])
                  "stats") = Ok r) /\
  (fun '(m, w, s) =>
     (dd_entry_count m, dd_entry_count w, dd_entry_count s,
      has_entry m "Close Range" "2024.01.15-10.30.00",
      has_entry m "Close Range" "2024.01.16-09.00.00",
      has_entry m "Tile Frenzy" "2024.01.15-11.00.00",
      has_entry m "Tile Frenzy" "2024.01.17-08.00.00")) <$> returned sample_run =
    Some (3%nat, 3%nat, 3%nat, true, true, true, false) /\
  printed (io_events sample_run) =
    ["Error processing " +:+ tile_frenzy_bad +:+
       ": 'utf-8' codec can't decode byte 0xff in position 0";
     nl +:+ "Total files processed: 3";
     "Unique tasks: 2"].
Proof.
  split; [|split].
  - destruct (failing_file_logged_and_skipped sample_fs Pandas.read_csv "stats"
                [close_range_1] tile_frenzy_bad
                [close_range_2; tile_frenzy_1]
                "Tile Frenzy" "2024.01.17-08.00.00"
                (UnicodeDecodeError "'utf-8' codec can't decode byte 0xff in position 0")
                eq_refl eq_refl eq_refl) as (_ & r & H1 & H2 & _).
    by exists r.
  - vm_compute. reflexivity.
  - vm_compute. reflexivity.
Defined.

(** C10. The three mappings that a run returns are auto-vivifying: the
    lookup of a task name that was never inserted raises nothing, gives an
    empty inner mapping and stores it under that name; the lookup of a
    timestamp that was never inserted under a task name gives the empty
    default (the empty frame in the event and weapon indices, the empty map
    in the stats index) and stores it. *)
Theorem returned_indices_auto_vivify
    (fs : string -> result (list string))
    (read_csv : list string -> nat -> nat -> result DataFrame)
    (listdir : string -> result (list string)) (dir : string)
    (m w : defaultdict (defaultdict DataFrame))
    (s : defaultdict (defaultdict (gmap string pyval))) :
  io_result (load_all_kovaaks_data fs read_csv listdir dir) = Ok (m, w, s) ->
  auto_vivifying DataFrame_empty m /\
  auto_vivifying DataFrame_empty w /\
  auto_vivifying (∅ : gmap string pyval) s.
Proof.
  destruct (listdir dir) as [names|e] eqn:Hl.
  - destruct (process_files_total fs read_csv dir names initial_indices)
      as (t & st & Hp & Hwf).
    rewrite (load_closed fs read_csv listdir dir names t st Hl Hp). simpl.
    intros [= <- <- <-].
    destruct Hwf as (H1 & H2 & H3).
    { repeat split; try done; intros k i; cbn; by rewrite lookup_empty. }
    repeat split; by apply index_wf_auto_vivifying.
  - unfold load_all_kovaaks_data, mbind, IO_bind. by rewrite Hl.
Qed.

Lemma returned_indices_witness :
  (exists m w s,
     io_result sample_run = Ok (m, w, s) /\
     auto_vivifying DataFrame_empty m /\
     auto_vivifying DataFrame_empty w /\
     auto_vivifying (∅ : gmap string pyval) s) /\
  (fun '(m, _, _) =>
     (dd_lookup2 m "Unknown Task" "2024.01.15-10.30.00",
      (dd_getitem2 m "Unknown Task" "2024.01.15-10.30.00").1,
      dd_lookup2 (dd_getitem2 m "Unknown Task" "2024.01.15-10.30.00").2
                 "Unknown Task" "2024.01.15-10.30.00")) <$> returned sample_run =
    Some (None, DataFrame_empty, Some DataFrame_empty).
Proof.
  split; [|vm_compute; reflexivity].
  destruct (load_total sample_fs Pandas.read_csv (fun _ => Ok sample_listing)
              "stats" sample_listing eq_refl) as (m & w & s & E).
  exists m, w, s. split; [exact E|].
  exact (returned_indices_auto_vivify sample_fs Pandas.read_csv
           (fun _ => Ok sample_listing) "stats" m w s E).
Defined.

(** ** Which directory entries become entries of the indices *)

Lemma endswith_app a b p : endswith b p = true -> endswith (a +:+ b) p = true.
Proof.
  intros Hb. induction a as [|c a IH]; [done|].
  simpl. by rewrite IH, orb_true_r.
Qed.

Lemma loose_tail_endswith task tail ts :
  loose_tail tail ts "" -> endswith (task +:+ tail) ".csv" = true.
Proof.
  intros (w1 & w2 & w3 & w4 & w5 & -> & _).
  by do 10 apply endswith_app.
Qed.

(** C3, as stated, fails in both directions: [loose_name] is not of the
    exact form, it has no space at all, and yet it contributes an entry,
    under task [A]; [tile_frenzy_bad] ends with [.csv] and is of the exact
    form, and contributes no entry, because its file cannot be read. *)
Lemma loose_name_contributes_entry :
  (~ exact_filename_form loose_name /\
   (fun '(m, _, _) => has_entry m "A" "2024.01.15-10.30.00") <$>
     returned (load_all_kovaaks_data
                 (one_file ("stats/" +:+ loose_name) three_section_file)
                 Pandas.read_csv (fun _ => Ok [loose_name]) "stats") = Some true) /\
  (exact_filename_form tile_frenzy_bad /\
   endswith tile_frenzy_bad ".csv" = true /\
   (fun '(m, _, _) => has_entry m "Tile Frenzy" "2024.01.17-08.00.00") <$>
     returned sample_run = Some false).
Proof.
  split; split.
  - intros (task & ts & E & _).
    assert (contains " " loose_name = true) as H; [|by vm_compute in H].
    rewrite E, !contains_app. simpl. by rewrite orb_true_r.
  - vm_compute. reflexivity.
  - by exists "Tile Frenzy", "2024.01.17-08.00.00".
  - split; vm_compute; reflexivity.
Qed.

(** C3, amended. A directory entry whose name does not end with [.csv],
    or that the pattern does not match, is skipped: no entry, nothing
    printed, nothing read.  The pattern matches a name if and only if,
    after a task text without line feed, the name goes on with the loose
    form (the white space around the two dashes and before [Stats.csv] of
    any length, also none); every name made of such a task text and the
    loose form ends with [.csv] and is matched.  A matched name whose file
    parses contributes its three entries under the task text of group 1
    with the white space at both ends removed, and the timestamp; so
    [Close Range - Challenge - 2024.01.15-10.30.00 Stats.csv] gives
    [Close Range] and [2024.01.15-10.30.00], and [random_notes.csv] is
    skipped. *)
Theorem filename_filter_and_identity
    (fs : string -> result (list string))
    (read_csv : list string -> nat -> nat -> result DataFrame)
    (dir : string) (st : indices) (name : string) :
  (endswith name ".csv" = false \/ re_match_filename name = None ->
   process_file fs read_csv dir st name = ([], Ok st)) /\
  (forall g1 g2, re_match_filename name = Some (g1, g2) ->
     exists tail rest,
       name = g1 +:+ tail /\ loose_tail tail g2 rest /\ contains "010" g1 = false) /\
  (forall task tail ts,
     name = task +:+ tail -> loose_tail tail ts "" -> contains "010" task = false ->
     endswith name ".csv" = true /\ is_Some (re_match_filename name)) /\
  (forall g1 g2 t m w s,
     endswith name ".csv" = true -> re_match_filename name = Some (g1, g2) ->
     parse_kovaaks_csv fs read_csv (os_path_join dir name) = (t, Ok (m, w, s)) ->
     exists t' st',
       process_file fs read_csv dir st name = (t', Ok st') /\
       dd_lookup2 (main_data st') (strip g1) g2 = Some m /\
       dd_lookup2 (weapon_data st') (strip g1) g2 = Some w /\
       dd_lookup2 (stats_data st') (strip g1) g2 = Some s) /\
  re_match_filename "Close Range - Challenge - 2024.01.15-10.30.00 Stats.csv" =
    Some ("Close Range", "2024.01.15-10.30.00") /\
  strip "Close Range" = "Close Range" /\
  re_match_filename "random_notes.csv" = None.
Proof.
  split; [apply process_file_skipped|].
  split; [intros g1 g2; apply re_match_filename_sound|].
  split.
  { intros task tail ts -> Hl Hn. split.
    - by eapply loose_tail_endswith.
    - by eapply re_match_filename_complete. }
  split.
  { intros g1 g2 t m w s He Hm Hp. eexists _, _.
    split; [by eapply process_file_parsed|].
    simpl. by rewrite !dd_lookup2_setitem2. }
  repeat split; vm_compute; reflexivity.
Qed.

(** ** Further properties *)

Lemma filter_all_true {A : Type} (f : A -> bool) (l : list A) :
  Forall (fun x => f x = true) l -> List.filter f l = l.
Proof.
  induction 1 as [|x l Hx _ IH]; simpl; [done|]. by rewrite Hx, IH.
Qed.

Lemma weapon_line_not_kills_line l :
  is_weapon_line l = true -> is_kills_line l = false.
Proof.
  unfold is_weapon_line, is_kills_line, startswith.
  destruct (strip l) as [|c r]; [done|].
  by destruct c as [[] [] [] [] [] [] [] []].
Qed.

Lemma weapon_table_of_range_eq lines s1 s2 :
  (s1 < s2)%nat -> (s2 <= length lines)%nat ->
  (forall i l, (s1 <= i < s2)%nat -> lines !! i = Some l ->
               Pandas.is_blank_line l = false) ->
  weapon_table_of Pandas.read_csv lines (Some s1) (Some s2) =
  weapon_table_of_range lines s1 s2.
Proof.
  intros Hlt Hlen2 Hnb.
  unfold weapon_table_of, weapon_table_of_range, Pandas.read_csv.
  rewrite drop_0.
  rewrite <- (take_drop (s2 - s1) (drop s1 lines)) at 1.
  rewrite List.filter_app.
  assert (Forall (fun l => negb (Pandas.is_blank_line l) = true)
                 (take (s2 - s1) (drop s1 lines))) as Hall.
  { apply Forall_forall. intros l [i Hi]%list_elem_of_lookup.
    apply lookup_take_Some in Hi as [Hi Hi']. rewrite lookup_drop in Hi.
    by rewrite (Hnb (s1 + i)%nat l ltac:(lia) Hi). }
  rewrite !(filter_all_true _ _ Hall).
  assert (length (take (s2 - s1) (drop s1 lines)) = (s2 - s1)%nat) as Hlen.
  { rewrite length_take, length_drop. lia. }
  destruct (take (s2 - s1) (drop s1 lines)) as [|h body]; [simpl in Hlen; lia|].
  simpl in Hlen. rewrite <- app_comm_cons.
  replace (s2 - s1 - 1)%nat with (length body) by lia.
  rewrite take_app_length. by rewrite (take_ge body) by lia.
Qed.

(** X1. When no line of the range from [section1_end] to [section2_end] is
    blank, the weapon table that the parse returns is the table of exactly
    the lines of that range.  The file is within the table model: no line
    holds a quote character, and the fields of the [Weapon,] line are labels
    that [pandas] keeps as written. *)
Theorem weapon_table_is_range_without_blank_line
    (fs : string -> result (list string)) (path : string)
    (lines : list string) (s1 s2 : nat) :
  fs path = Ok lines ->
  find_boundaries lines = (Some s1, Some s2) ->
  forallb Pandas.quote_free lines = true ->
  Pandas.plain_labels <$> lines !! s1 = Some true ->
  (forall i l, (s1 <= i < s2)%nat -> lines !! i = Some l ->
               Pandas.is_blank_line l = false) ->
  exists t main_df stats,
    parse_kovaaks_csv fs Pandas.read_csv path =
      (t, Ok (main_df, weapon_table_of_range lines s1 s2, stats)).
Proof.
  intros Hfs Hb _ _ Hnb.
  destruct (parse_kovaaks_csv_closed fs Pandas.read_csv path lines Hfs) as (t & E & _).
  rewrite Hb in E. cbn [fst snd] in E.
  rewrite find_boundaries_closed in Hb. injection Hb as H1 H2.
  pose proof (first_before_lt lines s1 s2 H1 H2) as Hle.
  apply first_before_spec in H1 as [[(l1 & Hl1 & Hw1) _] _].
  apply first_before_spec in H2 as [[(l2 & Hl2 & Hk2) _] _].
  assert (s1 <> s2) as Hne.
  { intros ->. rewrite Hl1 in Hl2. injection Hl2 as ->.
    apply weapon_line_not_kills_line in Hw1. congruence. }
  apply lookup_lt_Some in Hl2.
  rewrite weapon_table_of_range_eq in E by (done || lia).
  by eexists _, _, _.
Qed.

Lemma weapon_table_is_range_witness :
  exists t main_df stats,
    parse_kovaaks_csv (one_file "a.csv" three_section_file) Pandas.read_csv "a.csv" =
      (t, Ok (main_df, weapon_table_of_range three_section_file 2 4, stats)).
Proof.
  apply (weapon_table_is_range_without_blank_line
           (one_file "a.csv" three_section_file) "a.csv" three_section_file 2 4
           eq_refl eq_refl eq_refl eq_refl).
  intros i l Hi. assert (i = 2 \/ i = 3)%nat as [-> | ->] by lia;
    intros [= <-]; reflexivity.
Defined.

(** X2. Last wins: the stats map holds, for each key, the value of the last
    line from [section2_end] on that gives the key. *)
Theorem stats_last_line_wins :
  (forall lines s2 k,
     parse_stats lines (Some s2) !! k = last_value k (drop s2 lines)) /\
  parse_stats [ln "Kills:,5"; ln "Score: 10"; ln "Score: 20"] (Some 0%nat) !! "Score" =
    Some (VInt 20).
Proof. split; [apply parse_stats_lookup|]. vm_compute. reflexivity. Qed.


(** ** The boundaries and the row limits *)

(** X3. When the scan sets both boundaries, [section1_end] is strictly before
    [section2_end] and both are indices of lines of the file: the row limit
    [section2_end - section1_end - 1] that line 72 passes to [pandas] is
    never negative, and the stats loop of line 83 runs over at least one
    line. *)
Theorem boundaries_ordered_and_in_range (lines : list string) (s1 s2 : nat) :
  find_boundaries lines = (Some s1, Some s2) ->
  (s1 < s2)%nat /\ (s2 < length lines)%nat /\
  (exists l1 l2, lines !! s1 = Some l1 /\ is_weapon_line l1 = true /\
                 lines !! s2 = Some l2 /\ is_kills_line l2 = true).
Proof.
  rewrite find_boundaries_closed. intros [= H1 H2].
  pose proof (first_before_lt lines s1 s2 H1 H2) as Hle.
  apply first_before_spec in H1 as [[(l1 & Hl1 & Hw1) _] _].
  apply first_before_spec in H2 as [[(l2 & Hl2 & Hk2) _] _].
  assert (s1 <> s2) as Hne.
  { intros ->. rewrite Hl1 in Hl2. injection Hl2 as ->.
    apply weapon_line_not_kills_line in Hw1. congruence. }
  split; [lia|]. split; [by apply lookup_lt_Some in Hl2|].
  by exists l1, l2.
Qed.

Lemma boundaries_ordered_witness :
  (2 < 4)%nat /\ (4 < length three_section_file)%nat /\
  (exists l1 l2, three_section_file !! 2%nat = Some l1 /\ is_weapon_line l1 = true /\
                 three_section_file !! 4%nat = Some l2 /\ is_kills_line l2 = true).
Proof. exact (boundaries_ordered_and_in_range three_section_file 2 4 eq_refl). Defined.

Lemma first_before_none_iff p q lines :
  (forall l, l ∈ lines -> p l = false) -> first_before p q lines = None.
Proof.
  induction lines as [|l rest IH]; intros H; simpl; [done|].
  rewrite (H l) by apply list_elem_of_here.
  destruct (q l); [done|].
  rewrite IH; [done|]. intros x Hx. apply H. by apply list_elem_of_further.
Qed.

(** X4. In a file that has no [Kills:,] line, whatever else it holds, the
    weapon table is the empty frame, the stats map is empty, and [pandas] is
    not asked for the weapon table: only the event table may be read. *)
Theorem no_kills_line_no_weapon_table_no_stats
    (fs : string -> result (list string))
    (read_csv : list string -> nat -> nat -> result DataFrame)
    (path : string) (lines : list string) :
  fs path = Ok lines ->
  (forall l, l ∈ lines -> is_kills_line l = false) ->
  exists t main_df,
    parse_kovaaks_csv fs read_csv path =
      (IoReadlines path :: t, Ok (main_df, DataFrame_empty, ∅)) /\
    Forall (fun ev => exists n, ev = IoReadCsv path 0 n) t.
Proof.
  intros Hfs Hk.
  assert ((find_boundaries lines).2 = None) as H2.
  { rewrite find_boundaries_closed. by apply first_before_none_iff. }
  unfold parse_kovaaks_csv, readlines, mbind at 1, IO_bind at 1. rewrite Hfs.
  destruct (find_boundaries lines) as [s1 s2]. simpl in H2. subst s2.
  assert (parse_weapon_table fs read_csv path s1 None = ([], Ok DataFrame_empty)) as ->
    by by destruct s1.
  unfold parse_main_table, pd_read_csv, mbind, IO_bind, mret, IO_ret, try_except.
  rewrite Hfs.
  destruct s1 as [[|n]|]; simpl; try (by eexists _, _).
  destruct (read_csv lines 0%nat (n - 0)%nat) as [df|e]; simpl;
    [destruct (df_len df =? 0)%nat; simpl|];
    try (destruct (read_csv lines 0%nat 0%nat) as [df0|e0]; simpl);
    (eexists _, _; split; [reflexivity|]; repeat constructor; by eexists).
Qed.

Lemma no_kills_line_witness :
  exists t main_df,
    parse_kovaaks_csv (one_file "a.csv" no_kills_file) Pandas.read_csv "a.csv" =
      (IoReadlines "a.csv" :: t, Ok (main_df, DataFrame_empty, ∅)) /\
    Forall (fun ev => exists n, ev = IoReadCsv "a.csv" 0 n) t.
Proof.
  apply (no_kills_line_no_weapon_table_no_stats
           (one_file "a.csv" no_kills_file) Pandas.read_csv "a.csv" no_kills_file
           eq_refl).
  intros l Hl. repeat (apply elem_of_cons in Hl as [-> | Hl]; [reflexivity|]).
  by apply elem_of_nil in Hl.
Defined.

(** ** The keys of the stats map *)

Lemma lstrip_by_head p s :
  lstrip_by p s = "" \/ exists c r, lstrip_by p s = String c r /\ p c = false.
Proof.
  induction s as [|c s IH]; simpl; [by left|].
  destruct (p c) eqn:Hc; [done|]. right. by exists c, s.
Qed.

Lemma rstrip_by_idemp p s : rstrip_by p (rstrip_by p s) = rstrip_by p s.
Proof.
  induction s as [|c s IH]; simpl; [done|].
  destruct (p c && is_empty (rstrip_by p s)) eqn:E; [done|].
  simpl. by rewrite IH, E.
Qed.

Lemma lstrip_by_rstrip_by p s :
  lstrip_by p (rstrip_by p (lstrip_by p s)) = rstrip_by p (lstrip_by p s).
Proof.
  destruct (lstrip_by_head p s) as [-> | (c & r & -> & Hc)]; [done|].
  simpl. rewrite Hc. simpl. by rewrite Hc.
Qed.

(** Trimming twice is trimming once. *)
Lemma strip_idemp s : strip (strip s) = strip s.
Proof.
  unfold strip, strip_by. by rewrite lstrip_by_rstrip_by, rstrip_by_idemp.
Qed.

Lemma split_once_spec c s a b :
  split_once c s = Some (a, b) ->
  s = a +:+ String c b /\ contains c a = false.
Proof.
  revert a. induction s as [|d s IH]; intros a; simpl; [done|].
  destruct (Ascii.eqb_spec d c) as [->|Hne].
  - by intros [= <- <-].
  - destruct (split_once c s) as [[a' b']|]; [|done].
    intros [= <- <-]. destruct (IH a' eq_refl) as [-> Ha]. split; [done|].
    simpl. rewrite Ha, orb_false_r. by apply Ascii.eqb_neq.
Qed.

Lemma stats_entry_key raw k v :
  stats_entry raw = Some (k, v) -> strip k = k /\ contains ":" k = false.
Proof.
  unfold stats_entry.
  destruct (negb (is_empty (strip raw)) && contains ":" (strip raw)); [|done].
  destruct (split_once ":" (strip raw)) as [[a b]|] eqn:E; [|done].
  intros [= <- _]. split; [apply strip_idemp|].
  rewrite contains_strip by done. by apply split_once_spec in E as [_ ?].
Qed.

Lemma last_value_source k v ls :
  last_value k ls = Some v ->
  exists i raw, ls !! i = Some raw /\ stats_entry raw = Some (k, v).
Proof.
  induction ls as [|l rest IH]; simpl; [done|].
  destruct (last_value k rest) as [w|].
  - intros [= ->]. destruct (IH eq_refl) as (i & raw & Hi & He).
    by exists (S i), raw.
  - destruct (stats_entry l) as [[k' w]|] eqn:E; [|done].
    destruct (decide (k' = k)) as [->|]; [|done]. intros [= ->].
    by exists 0%nat, l.
Qed.

(** X5. Every key of the stats map comes from a line at or after
    [section2_end], has no white space at either end and holds no colon:
    the lines before [section2_end] never reach the map, and a key is the
    text before the first colon of its line. *)
Theorem stats_keys_trimmed_and_sourced (lines : list string) (s2 : nat)
    (k : string) (v : pyval) :
  parse_stats lines (Some s2) !! k = Some v ->
  strip k = k /\ contains ":" k = false /\
  exists i raw, (s2 <= i)%nat /\ lines !! i = Some raw /\
                stats_entry raw = Some (k, v).
Proof.
  rewrite parse_stats_lookup. intros (i & raw & Hi & He)%last_value_source.
  destruct (stats_entry_key raw k v He) as [H1 H2].
  split; [done|]. split; [done|].
  exists (s2 + i)%nat, raw. rewrite lookup_drop in Hi. split; [lia|done].
Qed.

Lemma stats_keys_witness :
  strip "Score" = "Score" /\ contains ":" "Score" = false /\
  exists i raw, (4 <= i)%nat /\ three_section_file !! i = Some raw /\
                stats_entry raw = Some ("Score", VStr "1,234").
Proof.
  apply (stats_keys_trimmed_and_sourced three_section_file 4 "Score" (VStr "1,234")).
  vm_compute. reflexivity.
Defined.

Lemma prefix_app p s : String.prefix p s = true -> exists r, s = p +:+ r.
Proof.
  revert s. induction p as [|a p IH]; intros s; simpl; [by exists s|].
  destruct s as [|c s]; [done|]. simpl.
  destruct (ascii_dec a c) as [->|]; [|discriminate].
  intros [r ->]%IH. by exists r.
Qed.

Lemma kills_line_entry l :
  is_kills_line l = true -> exists v, stats_entry l = Some ("Kills", v).
Proof.
  unfold is_kills_line, startswith. intros [r Hr]%prefix_app.
  unfold stats_entry. rewrite Hr. by eexists.
Qed.

(** X6. When [section2_end] is set, the stats map is not empty: it holds the
    key [Kills], since the sentinel line itself is the first line of the
    stats loop. *)
Theorem stats_map_holds_kills (lines : list string) (s2 : nat) :
  (find_boundaries lines).2 = Some s2 ->
  is_Some (parse_stats lines (Some s2) !! "Kills").
Proof.
  intros H. rewrite parse_stats_lookup.
  rewrite find_boundaries_closed in H. simpl in H.
  apply first_before_spec in H as [[(l & Hl & Hk) _] _].
  destruct (kills_line_entry l Hk) as [v Hv].
  apply (last_value_elem "Kills" v _ l); [|done].
  apply list_elem_of_lookup. exists 0%nat. by rewrite lookup_drop, Nat.add_0_r.
Qed.

Lemma stats_map_holds_kills_witness :
  is_Some (parse_stats blank_separated_file (Some 6%nat) !! "Kills").
Proof. exact (stats_map_holds_kills blank_separated_file 6 eq_refl). Defined.

(** ** Integers written in decimal come back as integers *)

Lemma all_chars_impl (q q' : ascii -> bool) s :
  (forall c, q c = true -> q' c = true) ->
  all_chars q s = true -> all_chars q' s = true.
Proof.
  intros Hq. induction s as [|c s IH]; simpl; [done|].
  intros [Hc Hs]%andb_true_iff. by rewrite (Hq c Hc), IH.
Qed.

(** A text none of whose characters is in the set stripped is left as it
    is, at both ends. *)
Lemma strip_by_fixed p q s :
  (forall c, q c = true -> p c = false) ->
  all_chars q s = true -> lstrip_by p s = s /\ rstrip_by p s = s.
Proof.
  intros Hq. induction s as [|c s IH]; simpl; [done|].
  intros [Hc Hs]%andb_true_iff. rewrite (Hq c Hc). simpl.
  split; [done|]. by rewrite (proj2 (IH Hs)).
Qed.

Lemma all_chars_contains q c s :
  q c = false -> all_chars q s = true -> contains c s = false.
Proof.
  intros Hc. induction s as [|d s IH]; simpl; [done|].
  intros [Hd Hs]%andb_true_iff. rewrite (IH Hs), orb_false_r.
  destruct (Ascii.eqb_spec d c) as [->|]; [congruence|done].
Qed.

Lemma string_of_uint_digits d :
  all_chars isdigit (DecimalString.NilEmpty.string_of_uint d) = true.
Proof. induction d; simpl; done. Qed.

Lemma string_of_nat_digits n : all_chars isdigit (string_of_nat n) = true.
Proof.
  unfold string_of_nat, DecimalString.NilZero.string_of_uint.
  destruct (Nat.to_uint n) eqn:E; try done; rewrite <- E; apply string_of_uint_digits.
Qed.

Lemma string_of_nat_nonempty n : is_empty (string_of_nat n) = false.
Proof.
  unfold string_of_nat, DecimalString.NilZero.string_of_uint.
  by destruct (Nat.to_uint n).
Qed.

Ltac eval_digit :=
  match goal with
  | |- context [digit_value ?c] =>
      let dv := eval vm_compute in (digit_value c) in
      change (digit_value c) with dv
  end.

(** Reading the digits of a decimal numeral continues the value read so
    far as [Nat.of_uint_acc] does, and counts them. *)
Lemma digits_after_uint d : forall acc k,
  digits_after (Z.of_nat acc) k (DecimalString.NilEmpty.string_of_uint d) =
    Some (Z.of_nat (Nat.of_uint_acc d acc),
          (k + String.length (DecimalString.NilEmpty.string_of_uint d))%nat).
Proof.
  induction d as [|d IH|d IH|d IH|d IH|d IH|d IH|d IH|d IH|d IH|d IH];
    intros acc k; simpl; [by rewrite Nat.add_0_r|..];
    match goal with
    | |- context [digits_after ?v ?j _] =>
        match goal with
        | |- context [Nat.of_uint_acc d ?a] =>
            replace v with (Z.of_nat a)
              by (rewrite Nat.tail_mul_spec; eval_digit; lia)
        end
    end; rewrite IH; do 2 f_equal; lia.
Qed.

Lemma digitpart_string_of_nat n :
  digitpart (string_of_nat n) =
    Some (Z.of_nat n, String.length (string_of_nat n)).
Proof.
  unfold string_of_nat, DecimalString.NilZero.string_of_uint.
  assert (n = Nat.of_uint (Nat.to_uint n)) as Hn
    by (symmetry; apply DecimalNat.Unsigned.of_to).
  revert Hn. generalize (Nat.to_uint n). intros u ->. unfold Nat.of_uint.
  destruct u as [|d|d|d|d|d|d|d|d|d|d]; simpl; [done|..];
    match goal with
    | |- context [digits_after ?v ?j _] =>
        match goal with
        | |- context [Nat.of_uint_acc d ?a] =>
            replace v with (Z.of_nat a)
              by (rewrite Nat.tail_mul_spec; eval_digit; lia)
        end
    end; by rewrite digits_after_uint.
Qed.

(** [int(str(n)) == n] for a numeral within the limit on the digits, and
    [ValueError] beyond it. *)
Lemma py_int_string_of_nat n :
  py_int (string_of_nat n) =
    if max_str_digits <? Z.of_nat (String.length (string_of_nat n)) then None
    else Some (Z.of_nat n).
Proof.
  unfold py_int.
  pose proof (string_of_nat_digits n) as Hd.
  destruct (strip_by_fixed isspace isdigit _ isdigit_not_space Hd) as [Hl Hr].
  unfold strip, strip_by. rewrite Hl, Hr.
  pose proof (digitpart_string_of_nat n) as Hk.
  destruct (string_of_nat n) as [|c r] eqn:E; [done|].
  simpl in Hd. apply andb_true_iff in Hd as [Hc _].
  assert (split_sign (String c r) = (false, String c r)) as ->
    by by destruct c as [[] [] [] [] [] [] [] []].
  by rewrite Hk.
Qed.

Lemma append_assoc (a b c : string) : (a +:+ b) +:+ c = a +:+ (b +:+ c).
Proof. induction a as [|d a IH]; [done|]. rewrite !app_cons. by f_equal. Qed.

Lemma lstrip_by_app_stop p a c b :
  p c = false -> lstrip_by p (a +:+ String c b) = lstrip_by p a +:+ String c b.
Proof.
  intros Hc. induction a as [|d a IH]; simpl; [by rewrite Hc|].
  by destruct (p d).
Qed.

Lemma lstrip_by_idemp p s : lstrip_by p (lstrip_by p s) = lstrip_by p s.
Proof.
  destruct (lstrip_by_head p s) as [-> | (c & r & -> & Hc)]; [done|].
  simpl. by rewrite Hc.
Qed.

Lemma rstrip_by_all p b : all_chars p b = true -> rstrip_by p b = "".
Proof.
  induction b as [|c b IH]; simpl; [done|].
  intros [Hc Hb]%andb_true_iff. by rewrite Hc, (IH Hb).
Qed.

Lemma rstrip_by_app_all p a b :
  all_chars p b = true -> rstrip_by p (a +:+ b) = rstrip_by p a.
Proof.
  intros Hb. induction a as [|d a IH]; simpl; [by apply rstrip_by_all|].
  by rewrite IH.
Qed.

Lemma rstrip_by_app_keep p a b :
  is_empty (rstrip_by p b) = false -> rstrip_by p (a +:+ b) = a +:+ rstrip_by p b.
Proof.
  intros Hb. induction a as [|d a IH]; simpl; [done|].
  rewrite IH.
  assert (is_empty (a +:+ rstrip_by p b) = false) as ->; [|by rewrite andb_false_r].
  destruct a; [done|]. by rewrite app_cons.
Qed.

Lemma split_once_app c a b :
  contains c a = false -> split_once c (a +:+ String c b) = Some (a, b).
Proof.
  induction a as [|d a IH]; simpl.
  - by rewrite Ascii.eqb_refl.
  - intros [Hd Ha]%orb_false_iff. by rewrite Hd, (IH Ha).
Qed.

Lemma rstrip_by_cons_keep p c r :
  p c = false -> rstrip_by p (String c r) = String c (rstrip_by p r).
Proof. intros Hc. simpl. by rewrite Hc. Qed.

(** The text of a stats line [key:,digits] after [strip]. *)
Lemma stats_line_strip key num :
  all_chars isdigit num = true ->
  strip (ln (key +:+ ":," +:+ num)) = lstrip_by isspace key +:+ ":," +:+ num.
Proof.
  intros Hd. unfold strip, strip_by, ln.
  destruct (strip_by_fixed isspace isdigit _ isdigit_not_space Hd) as [_ Hr].
  rewrite append_assoc.
  change (":," +:+ num) with (String ":" ("," +:+ num)).
  change (String ":" ("," +:+ num) +:+ nl) with (String ":" ("," +:+ (num +:+ nl))).
  rewrite lstrip_by_app_stop by done.
  assert (rstrip_by isspace (String ":" ("," +:+ (num +:+ nl))) =
          String ":" ("," +:+ num)) as E.
  { change ("," +:+ (num +:+ nl)) with (String "," (num +:+ nl)).
    rewrite !rstrip_by_cons_keep by done.
    by rewrite (rstrip_by_app_all isspace num nl), Hr. }
  rewrite rstrip_by_app_keep; by rewrite E.
Qed.

Lemma digit_or_comma_not_space c :
  isdigit c || is_comma c = true -> isspace c = false.
Proof. by destruct c as [[] [] [] [] [] [] [] []]. Qed.

(** The value of the text [,digits]. *)
Lemma stats_value_comma_nat n :
  stats_value ("," +:+ string_of_nat n) =
    if max_str_digits <? Z.of_nat (String.length (string_of_nat n))
    then VStr (string_of_nat n) else VInt (Z.of_nat n).
Proof.
  pose proof (string_of_nat_digits n) as Hd.
  destruct (strip_by_fixed isspace isdigit _ isdigit_not_space Hd) as [Hl Hr].
  destruct (strip_by_fixed is_comma isdigit _ isdigit_not_comma Hd) as [Hlc Hrc].
  assert (clean_value ("," +:+ string_of_nat n) = string_of_nat n) as Hclean.
  { change ("," +:+ string_of_nat n) with (String "," (string_of_nat n)).
    assert (all_chars (fun c => isdigit c || is_comma c) (String "," (string_of_nat n))
            = true) as Hq.
    { simpl. apply (all_chars_impl isdigit); [|done]. by intros c ->. }
    destruct (strip_by_fixed isspace _ _ digit_or_comma_not_space Hq) as [Hl' Hr'].
    unfold clean_value, strip, strip_by, lstrip_commas, rstrip_commas.
    rewrite Hl', Hr', Hl', Hr'.
    change (lstrip_by is_comma (String "," (string_of_nat n)))
      with (lstrip_by is_comma (string_of_nat n)).
    by rewrite Hlc, Hrc, Hl, Hr. }
  rewrite stats_value_unfold, Hclean, string_of_nat_nonempty.
  rewrite (all_chars_contains isdigit "." _ eq_refl Hd).
  rewrite py_int_string_of_nat. by destruct (_ <? _).
Qed.

(** X7. Round trip of an integer: a stats line made of a key without colon,
    [:,] and the decimal numeral of [n], as the trainer writes such lines,
    gives the entry of the trimmed key with the integer [n] when the
    numeral has at most 4300 digits; a longer numeral is refused by [int]
    and the entry keeps it as text. *)
Theorem stats_line_integer_round_trip (key : string) (n : nat) :
  contains ":" key = false ->
  stats_entry (ln (key +:+ ":," +:+ string_of_nat n)) =
    Some (strip key,
          if max_str_digits <? Z.of_nat (String.length (string_of_nat n))
          then VStr (string_of_nat n) else VInt (Z.of_nat n)).
Proof.
  intros Hk. unfold stats_entry.
  rewrite (stats_line_strip key _ (string_of_nat_digits n)).
  change (":," +:+ string_of_nat n) with (String ":" ("," +:+ string_of_nat n)).
  assert (contains ":" (lstrip_by isspace key) = false) as Hk'
    by by rewrite contains_lstrip_by.
  rewrite contains_app. simpl contains. rewrite orb_true_r, andb_true_r.
  rewrite (split_once_app ":" _ _ Hk').
  assert (is_empty (lstrip_by isspace key +:+ String ":" ("," +:+ string_of_nat n))
          = false) as -> by by destruct (lstrip_by isspace key).
  simpl negb. cbv iota. unfold strip at 1, strip_by.
  by rewrite lstrip_by_idemp, stats_value_comma_nat.
Qed.

Lemma stats_line_integer_witness :
  stats_entry (ln ("  Kills" +:+ ":," +:+ string_of_nat 33)) =
    Some (strip "  Kills", VInt (Z.of_nat 33)).
Proof. exact (stats_line_integer_round_trip "  Kills" 33 eq_refl). Defined.

(** ** Insertion and lookup in an index *)

Lemma dd_lookup2_setitem2_ne {V : Type} (dv : V) (d : defaultdict (defaultdict V))
    k1 k2 j1 j2 v :
  index_wf dv d -> (k1, k2) <> (j1, j2) ->
  dd_lookup2 (dd_setitem2 d k1 k2 v) j1 j2 = dd_lookup2 d j1 j2.
Proof.
  intros [Hd Hin] Hne. unfold dd_lookup2, dd_setitem2, dd_getitem, dd_setitem.
  destruct (dd_items d !! k1) as [inner|] eqn:E; simpl.
  - destruct (decide (k1 = j1)) as [<-|H1].
    + rewrite lookup_insert_eq, E. simpl.
      rewrite lookup_insert_ne; [done|]. congruence.
    + by rewrite lookup_insert_ne.
  - destruct (decide (k1 = j1)) as [<-|H1].
    + rewrite lookup_insert_eq, E, Hd. simpl.
      rewrite lookup_insert_ne by congruence. by rewrite lookup_empty.
    + by rewrite !lookup_insert_ne.
Qed.

(** The entry of an index after [d[k1][k2] = v], at any key. *)
Lemma dd_lookup2_setitem2_any {V : Type} (dv : V) (d : defaultdict (defaultdict V))
    k1 k2 j1 j2 v :
  index_wf dv d ->
  dd_lookup2 (dd_setitem2 d k1 k2 v) j1 j2 =
  if decide ((k1, k2) = (j1, j2)) then Some v else dd_lookup2 d j1 j2.
Proof.
  intros Hwf. destruct (decide ((k1, k2) = (j1, j2))) as [[= <- <-]|Hne].
  - apply dd_lookup2_setitem2.
  - by eapply dd_lookup2_setitem2_ne.
Qed.

(** ** What a run stores, entry by entry *)

Section RunForms.

Variable fs : string -> result (list string).
Variable read_csv : list string -> nat -> nat -> result DataFrame.

Lemma process_file_entries dir st name tr st' t d :
  indices_wf st ->
  process_file fs read_csv dir st name = (tr, Ok st') ->
  entries_are st st' t d (parsed_as fs read_csv dir t d name).
Proof.
  intros (W1 & W2 & W3). unfold parsed_as, file_outcome, entries_are.
  destruct (endswith name ".csv") eqn:He;
    [|rewrite process_file_skipped by (by left); by intros [= _ <-]].
  destruct (re_match_filename name) as [[g1 g2]|] eqn:Hm;
    [|rewrite process_file_skipped by (by right); by intros [= _ <-]].
  destruct (parse_kovaaks_csv fs read_csv (os_path_join dir name))
    as [tp [[[m w] s]|e]] eqn:Hp; simpl.
  - rewrite (process_file_parsed fs read_csv dir st name g1 g2 tp m w s He Hm Hp).
    intros [= _ <-]. simpl.
    rewrite (dd_lookup2_setitem2_any _ _ _ _ _ _ _ W1).
    rewrite (dd_lookup2_setitem2_any _ _ _ _ _ _ _ W2).
    rewrite (dd_lookup2_setitem2_any _ _ _ _ _ _ _ W3).
    by destruct (decide ((strip g1, g2) = (t, d))).
  - rewrite (process_file_failed fs read_csv dir st name g1 g2 tp e He Hm Hp).
    by intros [= _ <-].
Qed.

Lemma process_files_entries dir names t d : forall st tr st',
  indices_wf st ->
  process_files fs read_csv dir st names = (tr, Ok st') ->
  entries_are st st' t d (last_parsed fs read_csv dir t d names).
Proof.
  induction names as [|name rest IH]; intros st tr st' Hwf; simpl.
  - by intros [= _ <-].
  - destruct (process_file_total fs read_csv dir st name) as (t1 & st1 & E1 & W1).
    unfold mbind, IO_bind. rewrite E1.
    destruct (process_files fs read_csv dir st1 rest) as [t2 r2] eqn:E2.
    intros [= _ ->].
    pose proof (IH st1 t2 st' (W1 Hwf) E2) as (A1 & A2 & A3).
    pose proof (process_file_entries dir st name t1 st1 t d Hwf E1) as (B1 & B2 & B3).
    unfold entries_are. rewrite A1, A2, A3.
    destruct (last_parsed fs read_csv dir t d rest); [done|].
    by rewrite B1, B2, B3.
Qed.

End RunForms.

Lemma initial_indices_wf : indices_wf initial_indices.
Proof. repeat split; try done; intros k i; cbn; by rewrite lookup_empty. Qed.

(** X8. The result of a run, entry by entry: under a task name and a timestamp,
    each of the three indices holds the part of the parse of the last
    directory entry, in listing order, that has this identity and whose
    parse raises nothing; it holds nothing there when no entry is such.
    Two files with one identity: the later one wins. *)
Theorem run_stores_last_parsed_record
    (fs : string -> result (list string))
    (read_csv : list string -> nat -> nat -> result DataFrame)
    (listdir : string -> result (list string)) (dir : string) (names : list string) :
  listdir dir = Ok names ->
  exists m w s,
    io_result (load_all_kovaaks_data fs read_csv listdir dir) = Ok (m, w, s) /\
    forall t d,
      dd_lookup2 m t d = (fun r => r.1.1) <$> last_parsed fs read_csv dir t d names /\
      dd_lookup2 w t d = (fun r => r.1.2) <$> last_parsed fs read_csv dir t d names /\
      dd_lookup2 s t d = (fun r => r.2) <$> last_parsed fs read_csv dir t d names.
Proof.
  intros Hl.
  destruct (process_files_total fs read_csv dir names initial_indices)
    as (tr & st & Hp & _).
  rewrite (load_closed fs read_csv listdir dir names tr st Hl Hp).
  exists (main_data st), (weapon_data st), (stats_data st). split; [done|].
  intros t d.
  destruct (process_files_entries fs read_csv dir names t d _ _ _
              initial_indices_wf Hp) as (A1 & A2 & A3).
  rewrite A1, A2, A3. by destruct (last_parsed fs read_csv dir t d names).
Qed.

Lemma run_stores_last_parsed_witness :
  exists m w s,
    io_result sample_run = Ok (m, w, s) /\
    forall t d,
      dd_lookup2 m t d =
        (fun r => r.1.1) <$> last_parsed sample_fs Pandas.read_csv "stats" t d sample_listing /\
      dd_lookup2 w t d =
        (fun r => r.1.2) <$> last_parsed sample_fs Pandas.read_csv "stats" t d sample_listing /\
      dd_lookup2 s t d =
        (fun r => r.2) <$> last_parsed sample_fs Pandas.read_csv "stats" t d sample_listing.
Proof.
  exact (run_stores_last_parsed_record sample_fs Pandas.read_csv
           (fun _ => Ok sample_listing) "stats" sample_listing eq_refl).
Defined.

Lemma parsed_as_inv fs read_csv dir t d name r :
  parsed_as fs read_csv dir t d name = Some r ->
  endswith name ".csv" = true /\
  exists g1, re_match_filename name = Some (g1, d) /\ strip g1 = t /\
             io_result (parse_kovaaks_csv fs read_csv (os_path_join dir name)) = Ok r.
Proof.
  unfold parsed_as, file_outcome.
  destruct (endswith name ".csv"); [|done].
  destruct (re_match_filename name) as [[g1 g2]|]; [|done].
  destruct (io_result _) as [r'|e]; [|done].
  destruct (decide _) as [[= <- <-]|]; [|done].
  intros [= <-]. split; [done|]. by exists g1.
Qed.

Lemma last_parsed_elem fs read_csv dir t d names r :
  last_parsed fs read_csv dir t d names = Some r ->
  exists name, name ∈ names /\ parsed_as fs read_csv dir t d name = Some r.
Proof.
  induction names as [|name rest IH]; simpl; [done|].
  destruct (last_parsed fs read_csv dir t d rest) as [r'|].
  - intros [= <-]. destruct (IH eq_refl) as (n & Hn & Hr).
    exists n. split; [by apply elem_of_cons; right|done].
  - intros H. exists name. split; [by apply elem_of_cons; left|done].
Qed.

(** X9. Every entry of the returned indices comes from one file of the
    listing: when the event index holds an entry under a task name and a
    timestamp, the listing holds a name that ends with [.csv], that the
    pattern matches with this timestamp as group 2 and with a group 1 that
    strips to this task name, and whose parse returned the three values
    stored under this identity in the three indices.  The task name has no
    white space at its ends and the timestamp has the form
    [dddd.dd.dd-dd.dd.dd]. *)
Theorem stored_entries_come_from_one_file
    (fs : string -> result (list string))
    (read_csv : list string -> nat -> nat -> result DataFrame)
    (listdir : string -> result (list string)) (dir : string) (names : list string) :
  listdir dir = Ok names ->
  exists m w s,
    io_result (load_all_kovaaks_data fs read_csv listdir dir) = Ok (m, w, s) /\
    forall t d,
      has_entry m t d = true \/ has_entry w t d = true \/ has_entry s t d = true ->
      strip t = t /\ shape timestamp_shape d = Some (d, "") /\
      exists name g1 x y z,
        name ∈ names /\ endswith name ".csv" = true /\
        re_match_filename name = Some (g1, d) /\ strip g1 = t /\
        io_result (parse_kovaaks_csv fs read_csv (os_path_join dir name)) = Ok (x, y, z) /\
        dd_lookup2 m t d = Some x /\ dd_lookup2 w t d = Some y /\
        dd_lookup2 s t d = Some z.
Proof.
  intros Hl.
  destruct (process_files_total fs read_csv dir names initial_indices)
    as (tr & st & Hp & _).
  rewrite (load_closed fs read_csv listdir dir names tr st Hl Hp).
  exists (main_data st), (weapon_data st), (stats_data st). split; [done|].
  intros t d.
  destruct (process_files_entries fs read_csv dir names t d _ _ _
              initial_indices_wf Hp) as (A1 & A2 & A3).
  unfold has_entry. rewrite A1, A2, A3.
  destruct (last_parsed fs read_csv dir t d names) as [[[x y] z]|] eqn:E;
    [|by intros [H|[H|H]]].
  intros _.
  destruct (last_parsed_elem _ _ _ _ _ _ _ E) as (name & Hin & Hpa).
  destruct (parsed_as_inv _ _ _ _ _ _ _ Hpa) as (He & g1 & Hm & Hs & Hr).
  split; [rewrite <- Hs; apply strip_idemp|].
  split.
  - destruct (re_match_filename_sound _ _ _ Hm) as (tail & rest & _ & Hlt & _).
    destruct Hlt as (w1 & w2 & w3 & w4 & w5 & _ & _ & _ & _ & _ & _ & Hsh). done.
  - by exists name, g1, x, y, z.
Qed.

Lemma stored_entries_witness :
  (exists m w s,
    io_result sample_run = Ok (m, w, s) /\
    forall t d,
      has_entry m t d = true \/ has_entry w t d = true \/ has_entry s t d = true ->
      strip t = t /\ shape timestamp_shape d = Some (d, "") /\
      exists name g1 x y z,
        name ∈ sample_listing /\ endswith name ".csv" = true /\
        re_match_filename name = Some (g1, d) /\ strip g1 = t /\
        io_result (parse_kovaaks_csv sample_fs Pandas.read_csv
                     (os_path_join "stats" name)) = Ok (x, y, z) /\
        dd_lookup2 m t d = Some x /\ dd_lookup2 w t d = Some y /\
        dd_lookup2 s t d = Some z) /\
  (fun '(m, w, s) => has_entry m "Close Range" "2024.01.15-10.30.00")
    <$> returned sample_run = Some true.
Proof.
  split.
  - exact (stored_entries_come_from_one_file sample_fs Pandas.read_csv
             (fun _ => Ok sample_listing) "stats" sample_listing eq_refl).
  - vm_compute. reflexivity.
Defined.

(** ** What a run reads and prints *)

Section RunTrace.

Variable fs : string -> result (list string).
Variable read_csv : list string -> nat -> nat -> result DataFrame.

(** The three ways of one iteration: the entry is no candidate; its file
    cannot be read; its file is read, parsed and recorded. *)
Lemma process_file_cases dir st name :
  (candidate name = false /\ process_file fs read_csv dir st name = ([], Ok st)) \/
  (candidate name = true /\ exists e,
     fs (os_path_join dir name) = Raise e /\
     process_file fs read_csv dir st name =
       ([IoReadlines (os_path_join dir name); error_event name e], Ok st)) \/
  (candidate name = true /\ exists lines g1 g2 t m w s,
     fs (os_path_join dir name) = Ok lines /\
     re_match_filename name = Some (g1, g2) /\
     Forall (is_csv_read (os_path_join dir name)) t /\
     process_file fs read_csv dir st name =
       (IoReadlines (os_path_join dir name) :: t ++ progress_events (S (processed st)),
        Ok (record_file st (strip g1) g2 m w s))).
Proof.
  unfold candidate.
  destruct (endswith name ".csv") eqn:He;
    [|left; split; [done|apply process_file_skipped; by left]].
  destruct (re_match_filename name) as [[g1 g2]|] eqn:Hm;
    [|left; split; [done|apply process_file_skipped; by right]].
  right. destruct (fs (os_path_join dir name)) as [lines|e] eqn:Hfs.
  - right. split; [done|].
    destruct (parse_kovaaks_csv_closed fs read_csv _ lines Hfs) as (t & E & F & _).
    eexists lines, g1, g2, t, _, _, _. split; [done|]. split; [done|]. split; [done|].
    by rewrite (process_file_parsed fs read_csv dir st name g1 g2 _ _ _ _ He Hm E).
  - left. split; [done|]. exists e. split; [done|].
    by rewrite (process_file_failed fs read_csv dir st name g1 g2 _ e He Hm
                  (parse_kovaaks_csv_unreadable fs read_csv _ e Hfs)).
Qed.

Lemma omap_opened_quiet path t t' :
  Forall (is_csv_read path) t ->
  omap opened (t ++ progress_events t') = [].
Proof.
  intros F. rewrite omap_app.
  assert (omap opened t = []) as ->.
  { induction F as [|ev t (k & n & ->) _ IH]; [done|]. simpl. exact IH. }
  unfold progress_events. by destruct (_ =? _)%nat.
Qed.

Lemma process_files_opened dir names : forall st tr st',
  process_files fs read_csv dir st names = (tr, Ok st') ->
  omap opened tr = os_path_join dir <$> List.filter candidate names.
Proof.
  induction names as [|name rest IH]; intros st tr st'; simpl.
  - by intros [= <- _].
  - unfold mbind at 1, IO_bind at 1.
    destruct (process_file_cases dir st name)
      as [(Hc & E)|[(Hc & e & _ & E)|(Hc & l & g1 & g2 & t & m & w & s & _ & _ & F & E)]];
      rewrite E, Hc; clear E;
      destruct (process_files fs read_csv dir _ rest) as [t2 r2] eqn:E2;
      intros [= <- ->]; apply IH in E2.
    + done.
    + change (os_path_join dir name :: omap opened t2 =
              os_path_join dir <$> name :: List.filter candidate rest).
      by rewrite E2.
    + change (os_path_join dir name ::
                omap opened ((t ++ progress_events (S (processed st))) ++ t2) =
              os_path_join dir <$> name :: List.filter candidate rest).
      by rewrite omap_app, (omap_opened_quiet _ _ _ F), E2.
Qed.

End RunTrace.

(** X10. A run opens, with [readlines], the file of every directory entry that
    ends with [.csv] and that the pattern matches, once each and in the
    order of the listing, and no other file. *)
Theorem run_opens_each_candidate_once
    (fs : string -> result (list string))
    (read_csv : list string -> nat -> nat -> result DataFrame)
    (listdir : string -> result (list string)) (dir : string) (names : list string) :
  listdir dir = Ok names ->
  omap opened (io_events (load_all_kovaaks_data fs read_csv listdir dir)) =
    os_path_join dir <$> List.filter candidate names.
Proof.
  intros Hl.
  destruct (process_files_total fs read_csv dir names initial_indices)
    as (tr & st & Hp & _).
  rewrite (load_closed fs read_csv listdir dir names tr st Hl Hp).
  unfold io_events. simpl. rewrite omap_app. simpl. rewrite app_nil_r.
  by eapply process_files_opened.
Qed.

Lemma run_opens_witness :
  omap opened (io_events sample_run) =
    ["stats/" +:+ close_range_1; "stats/" +:+ tile_frenzy_bad;
     "stats/" +:+ close_range_2; "stats/" +:+ tile_frenzy_1].
Proof.
  exact (run_opens_each_candidate_once sample_fs Pandas.read_csv
           (fun _ => Ok sample_listing) "stats" sample_listing eq_refl).
Defined.

Lemma dd_setitem2_dom {V : Type} (d : defaultdict (defaultdict V)) k1 k2 v :
  dom (dd_items (dd_setitem2 d k1 k2 v)) = {[k1]} ∪ dom (dd_items d).
Proof.
  unfold dd_setitem2, dd_getitem.
  destruct (dd_items d !! k1); simpl; rewrite !dom_insert_L; [done|].
  by rewrite (assoc_L (∪)), (idemp_L (∪)).
Qed.

Lemma printed_app t1 t2 : printed (t1 ++ t2) = printed t1 ++ printed t2.
Proof. apply omap_app. Qed.

Lemma printed_reads path t : Forall (is_csv_read path) t -> printed t = [].
Proof. induction 1 as [|ev t (k & n & ->) _ IH]; [done|exact IH]. Qed.

Lemma error_text_is_error_line x :
  is_error_line ("Error processing " +:+ x) = true /\
  is_progress_line ("Error processing " +:+ x) = false.
Proof.
  split; [|done]. unfold is_error_line, startswith. simpl. by destruct x.
Qed.

Lemma progress_line_is_progress_line i :
  is_progress_line (progress_line i) = true /\
  is_error_line (progress_line i) = false.
Proof.
  split; [|done]. unfold is_progress_line, progress_line, startswith. simpl.
  by destruct (_ +:+ _).
Qed.

Section RunOutput.

Variable fs : string -> result (list string).
Variable read_csv : list string -> nat -> nat -> result DataFrame.

(** The events of one recorded file print the progress line, if any. *)
Lemma printed_recorded path t i :
  Forall (is_csv_read path) t ->
  printed (IoReadlines path :: t ++ progress_events i) =
    if (i mod 10 =? 0)%nat then [progress_line i] else [].
Proof.
  intros F. change (printed (IoReadlines path :: ?x)) with (printed x).
  rewrite printed_app, (printed_reads _ _ F). unfold progress_events.
  by destruct (_ =? _)%nat.
Qed.

Lemma recorded_cases dir name :
  recorded fs dir name =
    candidate name &&
    match fs (os_path_join dir name) with Ok _ => true | Raise _ => false end.
Proof. done. Qed.

Lemma process_files_counts dir names : forall st tr st',
  process_files fs read_csv dir st names = (tr, Ok st') ->
  processed st' = (processed st + length (List.filter (recorded fs dir) names))%nat /\
  dom (dd_items (main_data st')) =
    dom (dd_items (main_data st)) ∪
    (list_to_set (omap task_of (List.filter (recorded fs dir) names)) : gset string).
Proof.
  induction names as [|name rest IH]; intros st tr st';
    cbn [process_files List.filter].
  - intros [= _ <-]. split; [simpl; lia|]. simpl. by rewrite (right_id_L ∅ (∪)).
  - unfold mbind at 1, IO_bind at 1. rewrite recorded_cases.
    destruct (process_file_cases fs read_csv dir st name)
      as [(Hc & E)|[(Hc & e & Hfs & E)|(Hc & l & g1 & g2 & t & m & w & s & Hfs & Hm & F & E)]];
      rewrite E, Hc, ?Hfs; clear E;
      destruct (process_files fs read_csv dir _ rest) as [t2 r2] eqn:E2;
      intros [= _ ->]; apply IH in E2 as [E2 E3].
    + done.
    + done.
    + split; [simpl in *; lia|].
      rewrite E3. cbn [andb].
      change (omap task_of (name :: ?l)) with
        (match task_of name with Some y => y :: omap task_of l | None => omap task_of l end).
      assert (task_of name = Some (strip g1)) as -> by (unfold task_of; by rewrite Hm).
      cbn [list_to_set record_file main_data].
      rewrite dd_setitem2_dom.
      by rewrite (comm_L (∪) {[strip g1]}), (assoc_L (∪)).
Qed.

Lemma process_files_errors dir names : forall st tr st',
  process_files fs read_csv dir st names = (tr, Ok st') ->
  List.filter is_error_line (printed tr) = omap (error_line fs dir) names.
Proof.
  induction names as [|name rest IH]; intros st tr st'; simpl.
  - by intros [= <- _].
  - unfold mbind at 1, IO_bind at 1. unfold error_line at 1.
    destruct (process_file_cases fs read_csv dir st name)
      as [(Hc & E)|[(Hc & e & Hfs & E)|(Hc & l & g1 & g2 & t & m & w & s & Hfs & Hm & F & E)]];
      rewrite E, Hc, ?Hfs; clear E;
      destruct (process_files fs read_csv dir _ rest) as [t2 r2] eqn:E2;
      intros [= <- ->]; apply IH in E2.
    + done.
    + change (printed (_ :: _ :: t2)) with
        (("Error processing " +:+ name +:+ ": " +:+ exn_message e) :: printed t2).
      change (List.filter is_error_line (?x :: ?l)) with
        (if is_error_line x then x :: List.filter is_error_line l
         else List.filter is_error_line l).
      by rewrite (proj1 (error_text_is_error_line _)), E2.
    + rewrite app_comm_cons, printed_app, List.filter_app, E2.
      rewrite (printed_recorded _ _ _ F).
      destruct (_ =? _)%nat; [|done].
      change (List.filter is_error_line [?x]) with
        (if is_error_line x then [x] else []).
      by rewrite (proj2 (progress_line_is_progress_line _)).
Qed.

Lemma process_files_progress dir names : forall st tr st',
  process_files fs read_csv dir st names = (tr, Ok st') ->
  List.filter is_progress_line (printed tr) =
    progress_line <$>
      List.filter (fun i => i mod 10 =? 0)%nat
        (seq (S (processed st)) (length (List.filter (recorded fs dir) names))).
Proof.
  induction names as [|name rest IH]; intros st tr st';
    cbn [process_files List.filter].
  - by intros [= <- _].
  - unfold mbind at 1, IO_bind at 1. rewrite recorded_cases.
    destruct (process_file_cases fs read_csv dir st name)
      as [(Hc & E)|[(Hc & e & Hfs & E)|(Hc & l & g1 & g2 & t & m & w & s & Hfs & Hm & F & E)]];
      rewrite E, Hc, ?Hfs; clear E;
      destruct (process_files fs read_csv dir _ rest) as [t2 r2] eqn:E2;
      intros [= <- ->]; apply IH in E2.
    + done.
    + change (printed (_ :: _ :: t2)) with
        (("Error processing " +:+ name +:+ ": " +:+ exn_message e) :: printed t2).
      change (List.filter is_progress_line (?x :: ?l)) with
        (if is_progress_line x then x :: List.filter is_progress_line l
         else List.filter is_progress_line l).
      by rewrite (proj2 (error_text_is_error_line _)), E2.
    + rewrite app_comm_cons, printed_app, List.filter_app, E2.
      rewrite (printed_recorded _ _ _ F).
      cbn [andb length seq List.filter record_file processed].
      destruct (_ =? _)%nat; [|done].
      change (List.filter is_progress_line [?x]) with
        (if is_progress_line x then [x] else []).
      by rewrite (proj1 (progress_line_is_progress_line _)).
Qed.

End RunOutput.

(** X11. The summary of a run: its last two printed lines give the number of
    directory entries that are candidates and whose file could be read, and
    the number of distinct task names among them. *)
Theorem run_summary_counts
    (fs : string -> result (list string))
    (read_csv : list string -> nat -> nat -> result DataFrame)
    (listdir : string -> result (list string)) (dir : string) (names : list string) :
  listdir dir = Ok names ->
  exists before,
    printed (io_events (load_all_kovaaks_data fs read_csv listdir dir)) =
      before ++
      [nl +:+ "Total files processed: " +:+
         string_of_nat (length (List.filter (recorded fs dir) names));
       "Unique tasks: " +:+
         string_of_nat
           (size (list_to_set (omap task_of (List.filter (recorded fs dir) names))
                    : gset string))].
Proof.
  intros Hl.
  destruct (process_files_total fs read_csv dir names initial_indices)
    as (tr & st & Hp & _).
  rewrite (load_closed fs read_csv listdir dir names tr st Hl Hp).
  destruct (process_files_counts fs read_csv dir names _ _ _ Hp) as [Hn Hd].
  exists (printed tr). unfold io_events. simpl.
  change (printed (IoListdir dir :: ?x)) with (printed x).
  rewrite printed_app. f_equal. simpl. unfold dd_len.
  rewrite <- size_dom, Hd, Hn.
  change (dom (dd_items (main_data initial_indices)))
    with (dom (∅ : gmap string (defaultdict DataFrame))).
  by rewrite dom_empty_L, (left_id_L ∅ (∪)).
Qed.

Lemma run_summary_witness :
  exists before,
    printed (io_events sample_run) =
      before ++ [nl +:+ "Total files processed: 3"; "Unique tasks: 2"].
Proof.
  exact (run_summary_counts sample_fs Pandas.read_csv
           (fun _ => Ok sample_listing) "stats" sample_listing eq_refl).
Defined.

(** X12. The errors that a run reports: one line for each candidate whose file
    cannot be read, with its name and the message of the exception, in the
    order of the listing; a candidate whose file can be read is never
    reported, whatever its content. *)
Theorem run_reports_unreadable_candidates
    (fs : string -> result (list string))
    (read_csv : list string -> nat -> nat -> result DataFrame)
    (listdir : string -> result (list string)) (dir : string) (names : list string) :
  listdir dir = Ok names ->
  List.filter is_error_line
    (printed (io_events (load_all_kovaaks_data fs read_csv listdir dir))) =
  omap (error_line fs dir) names.
Proof.
  intros Hl.
  destruct (process_files_total fs read_csv dir names initial_indices)
    as (tr & st & Hp & _).
  rewrite (load_closed fs read_csv listdir dir names tr st Hl Hp).
  unfold io_events. simpl.
  change (printed (IoListdir dir :: ?x)) with (printed x).
  rewrite printed_app, List.filter_app, (process_files_errors _ _ _ _ _ _ _ Hp).
  apply app_nil_r.
Qed.

Lemma run_reports_witness :
  List.filter is_error_line (printed (io_events sample_run)) =
    ["Error processing " +:+ tile_frenzy_bad +:+
       ": 'utf-8' codec can't decode byte 0xff in position 0"].
Proof.
  exact (run_reports_unreadable_candidates sample_fs Pandas.read_csv
           (fun _ => Ok sample_listing) "stats" sample_listing eq_refl).
Defined.

(** X13. The progress lines of a run: one for every tenth recorded file, that
    is, for each multiple of 10 up to the number of recorded files, in
    increasing order. *)
Theorem run_progress_every_tenth_file
    (fs : string -> result (list string))
    (read_csv : list string -> nat -> nat -> result DataFrame)
    (listdir : string -> result (list string)) (dir : string) (names : list string) :
  listdir dir = Ok names ->
  List.filter is_progress_line
    (printed (io_events (load_all_kovaaks_data fs read_csv listdir dir))) =
  progress_line <$>
    List.filter (fun i => i mod 10 =? 0)%nat
      (seq 1 (length (List.filter (recorded fs dir) names))).
Proof.
  intros Hl.
  destruct (process_files_total fs read_csv dir names initial_indices)
    as (tr & st & Hp & _).
  rewrite (load_closed fs read_csv listdir dir names tr st Hl Hp).
  unfold io_events. simpl.
  change (printed (IoListdir dir :: ?x)) with (printed x).
  rewrite printed_app, List.filter_app, (process_files_progress _ _ _ _ _ _ _ Hp).
  apply app_nil_r.
Qed.

Lemma run_progress_witness :
  List.filter is_progress_line
    (printed (io_events (load_all_kovaaks_data eleven_readable Pandas.read_csv
                           (fun _ => Ok twelve_names) "stats"))) =
  ["Processed 10 files..."].
Proof.
  exact (run_progress_every_tenth_file eleven_readable Pandas.read_csv
           (fun _ => Ok twelve_names) "stats" twelve_names eq_refl).
Defined.

(** ** The lazy group of the file name pattern *)

Lemma rstrip_by_last p g :
  rstrip_by p g = g \/ exists g1 c, g = g1 +:+ String c "" /\ p c = true.
Proof.
  induction g as [|a r IH]; [by left|].
  destruct IH as [IH|(g1 & c & -> & Hc)].
  - simpl. rewrite IH. destruct (p a) eqn:Ha; [|by left].
    destruct r as [|b r]; [|by left].
    right. by exists "", a.
  - right. by exists (String a g1), c.
Qed.

Lemma match_tail_skip c s : isspace c = true -> match_tail (String c s) = match_tail s.
Proof. intros Hc. unfold match_tail, skip_spaces. simpl. by rewrite Hc. Qed.

Lemma re_match_filename_minimal s : forall g ts,
  re_match_filename s = Some (g, ts) ->
  exists tail,
    s = g +:+ tail /\ match_tail tail = Some ts /\
    forall g1 g2, g = g1 +:+ g2 -> is_empty g2 = false ->
                  match_tail (g2 +:+ tail) = None.
Proof.
  induction s as [|c s IH]; intros g ts; simpl; [done|].
  destruct (match_tail (String c s)) as [ts'|] eqn:E.
  - intros [= <- <-]. exists (String c s). split; [done|]. split; [done|].
    intros [|a g1] g2 Hg; [rewrite app_empty_l in Hg; by subst|done].
  - destruct (Ascii.eqb c "010") eqn:Hc; [done|].
    destruct (re_match_filename s) as [[g' ts']|]; [|done].
    intros [= <- <-]. destruct (IH g' ts' eq_refl) as (tail & -> & Ht & Hmin).
    exists tail. split; [done|]. split; [done|].
    intros [|a g1] g2 Hg.
    + rewrite app_empty_l in Hg. by subst.
    + rewrite app_cons in Hg. injection Hg as _ Hg. by apply (Hmin g1).
Qed.

(** X14. Group 1 of a match is the shortest prefix of the name after which the
    rest of the pattern matches, and it never ends with white space: the
    [strip] of line 131 can only remove white space at its start. *)
Theorem group1_shortest_no_trailing_space (name g ts : string) :
  re_match_filename name = Some (g, ts) ->
  rstrip_by isspace g = g /\ strip g = lstrip_by isspace g /\
  exists tail,
    name = g +:+ tail /\ match_tail tail = Some ts /\
    forall g1 g2, g = g1 +:+ g2 -> is_empty g2 = false ->
                  match_tail (g2 +:+ tail) = None.
Proof.
  intros (tail & E & Ht & Hmin)%re_match_filename_minimal.
  assert (rstrip_by isspace g = g) as Hr.
  { destruct (rstrip_by_last isspace g) as [H|(g1 & c & Hg & Hc)]; [done|].
    specialize (Hmin g1 (String c "") Hg eq_refl).
    rewrite app_cons, app_empty_l, (match_tail_skip _ _ Hc) in Hmin. congruence. }
  split; [done|]. split; [|by exists tail].
  unfold strip, strip_by.
  destruct (rstrip_by_last isspace (lstrip_by isspace g)) as [H|(g1 & c & Hg & Hc)];
    [done|].
  destruct (lstrip_by_decompose isspace g) as (w & Hw & _).
  rewrite Hg, <- append_assoc in Hw.
  specialize (Hmin _ (String c "") Hw eq_refl).
  rewrite app_cons, app_empty_l, (match_tail_skip _ _ Hc) in Hmin. congruence.
Qed.

Lemma group1_shortest_witness :
  rstrip_by isspace "Close Range" = "Close Range" /\
  strip "Close Range" = lstrip_by isspace "Close Range" /\
  exists tail,
    close_range_1 = "Close Range" +:+ tail /\
    match_tail tail = Some "2024.01.15-10.30.00" /\
    forall g1 g2, "Close Range" = g1 +:+ g2 -> is_empty g2 = false ->
                  match_tail (g2 +:+ tail) = None.
Proof.
  exact (group1_shortest_no_trailing_space close_range_1 "Close Range"
           "2024.01.15-10.30.00" eq_refl).
Defined.

(** ** Text after [Stats.csv] *)

Lemma length_append a b :
  String.length (a +:+ b) = (String.length a + String.length b)%nat.
Proof. induction a as [|c a IH]; [done|]. rewrite app_cons. simpl. by rewrite IH. Qed.

Lemma append_inv_head a b c : a +:+ b = a +:+ c -> b = c.
Proof.
  induction a as [|d a IH]; [done|]. rewrite !app_cons. intros [= H]. by apply IH.
Qed.

(** The text before the first occurrence of a character is a prefix of
    the text before any occurrence of it. *)
Lemma first_char_prefix c a b a' b' :
  a +:+ String c b = a' +:+ String c b' -> contains c a = false ->
  exists d, a' = a +:+ d.
Proof.
  revert a'. induction a as [|x a IH]; intros a'; [by exists a'|].
  rewrite app_cons. simpl. intros H [Hx Ha]%orb_false_iff.
  destruct a' as [|y a'].
  - rewrite app_empty_l in H. injection H as -> _. by rewrite Ascii.eqb_refl in Hx.
  - rewrite app_cons in H. injection H as -> H.
    destruct (IH a' H Ha) as [d ->]. by exists d.
Qed.

Lemma append_prefix_long A x P r :
  A +:+ x = P +:+ r -> (String.length P <= String.length A)%nat ->
  exists y, A = P +:+ y.
Proof.
  revert A. induction P as [|c P IH]; intros A; [by exists A|].
  destruct A as [|a A]; simpl; [lia|].
  rewrite !app_cons. intros [= -> H] Hl.
  destruct (IH A H ltac:(lia)) as [y ->]. by exists y.
Qed.

Lemma shape_lacks c t : forall s m r,
  isdigit c = false -> contains c t = false ->
  shape t s = Some (m, r) -> contains c m = false.
Proof.
  induction t as [|a t IH]; intros s m r Hd; simpl.
  - by intros _ [= <- _].
  - intros [Ha Ht]%orb_false_iff. destruct s as [|x s]; [done|].
    destruct (if Ascii.eqb a "d" then isdigit x else Ascii.eqb a x) eqn:Hx; [|done].
    destruct (shape t s) as [[m' r']|] eqn:E; [|done].
    intros [= <- <-]. simpl. rewrite (IH _ _ _ Hd Ht E), orb_false_r.
    destruct (Ascii.eqb_spec x c) as [->|]; [|done].
    destruct (Ascii.eqb a "d"); congruence.
Qed.

Lemma loose_tail_head s ts rest :
  loose_tail s ts rest <-> exists q, loose_head q ts /\ s = q +:+ "Stats.csv" +:+ rest.
Proof.
  split.
  - intros (w1 & w2 & w3 & w4 & w5 & -> & H).
    eexists. split; [by exists w1, w2, w3, w4, w5|].
    by rewrite !append_assoc.
  - intros (q & (w1 & w2 & w3 & w4 & w5 & -> & H) & ->).
    exists w1, w2, w3, w4, w5. split; [|done]. by rewrite !append_assoc.
Qed.

Lemma loose_head_lacks_S q ts : loose_head q ts -> contains "S" q = false.
Proof.
  intros (w1 & w2 & w3 & w4 & w5 & -> & H1 & H2 & H3 & H4 & H5 & Hts).
  rewrite !contains_app.
  rewrite (all_chars_contains isspace "S" w1), (all_chars_contains isspace "S" w2),
    (all_chars_contains isspace "S" w3), (all_chars_contains isspace "S" w4),
    (all_chars_contains isspace "S" w5) by done.
  by rewrite (shape_lacks "S" timestamp_shape ts ts "" eq_refl eq_refl Hts).
Qed.

Lemma match_tail_app s ts x : match_tail s = Some ts -> match_tail (s +:+ x) = Some ts.
Proof.
  intros [rest (q & Hq & ->)%loose_tail_head]%match_tail_sound.
  apply (match_tail_complete _ _ (rest +:+ x)), loose_tail_head.
  exists q. split; [done|]. by rewrite !append_assoc.
Qed.

(** A text that holds [Stats.csv] and that the tail of the pattern does
    not match is not matched either when it is extended. *)
Lemma match_tail_app_none u x a b :
  match_tail u = None -> u = a +:+ "Stats.csv" +:+ b ->
  match_tail (u +:+ x) = None.
Proof.
  intros Hn Hu. destruct (match_tail (u +:+ x)) as [ts|] eqn:E; [exfalso|done].
  apply match_tail_sound in E as [rest (q & Hq & E)%loose_tail_head].
  pose proof (loose_head_lacks_S _ _ Hq) as HS.
  assert (exists d, a = q +:+ d) as [d ->].
  { apply (first_char_prefix "S" q ("tats.csv" +:+ rest) a ("tats.csv" +:+ (b +:+ x)));
      [|done].
    change (q +:+ "Stats.csv" +:+ rest = a +:+ "Stats.csv" +:+ b +:+ x).
    by rewrite <- E, Hu, !append_assoc. }
  rewrite Hu, !append_assoc in E. apply append_inv_head in E.
  rewrite <- !append_assoc in E.
  destruct (append_prefix_long _ _ _ _ E) as [y Hy].
  { rewrite !length_append. simpl. lia. }
  assert (loose_tail u ts y) as Hl.
  { apply loose_tail_head. exists q. split; [done|].
    by rewrite Hu, append_assoc, <- Hy, !append_assoc. }
  apply match_tail_complete in Hl. congruence.
Qed.

(** X15. The match is not anchored at the end of the name: a name that the
    pattern matches is matched with the same two groups when any text is
    appended to it. *)
Theorem text_after_stats_csv_ignored (name x g ts : string) :
  re_match_filename name = Some (g, ts) ->
  re_match_filename (name +:+ x) = Some (g, ts).
Proof.
  revert g. induction name as [|c s IH]; intros g; [done|].
  rewrite app_cons. simpl.
  destruct (match_tail (String c s)) as [ts'|] eqn:E.
  - intros [= <- <-].
    apply (match_tail_app _ _ x) in E. rewrite app_cons in E. by rewrite E.
  - destruct (Ascii.eqb c "010") eqn:Hc; [done|].
    destruct (re_match_filename s) as [[g' ts']|] eqn:Hm; [|done].
    intros [= <- <-].
    destruct (re_match_filename_sound _ _ _ Hm)
      as (tail & rest & Hs & (q & _ & ->)%loose_tail_head & _).
    rewrite <- app_cons, (match_tail_app_none _ x (String c (g' +:+ q)) rest E).
    + by rewrite (IH g' eq_refl).
    + by rewrite Hs, (app_cons c (g' +:+ q)), append_assoc.
Qed.

Lemma text_after_stats_csv_witness :
  re_match_filename (close_range_1 +:+ ".old.csv") =
    Some ("Close Range", "2024.01.15-10.30.00").
Proof.
  exact (text_after_stats_csv_ignored close_range_1 ".old.csv" "Close Range"
           "2024.01.15-10.30.00" eq_refl).
Defined.

(** ** The sizes of the two tables *)

Lemma dropna_all_rows df :
  Forall (fun r => forallb is_nan r = false) (rows (dropna_all df)) /\
  (df_len (dropna_all df) <= df_len df)%nat.
Proof.
  unfold dropna_all, df_len. simpl. split.
  - apply Forall_forall. intros r Hr%list_elem_of_In%List.filter_In.
    destruct Hr as [_ Hr]. by apply negb_true_iff.
  - apply List.filter_length_le.
Qed.

(** X16. The weapon table that the parse returns never holds a row whose cells
    are all missing, whatever the table parser gives and also when the
    parse of the section falls back to the empty frame. *)
Theorem weapon_table_has_no_empty_row
    (fs : string -> result (list string))
    (read_csv : list string -> nat -> nat -> result DataFrame)
    (path : string) (lines : list string) :
  fs path = Ok lines ->
  exists t main_df weapon_df stats,
    parse_kovaaks_csv fs read_csv path = (t, Ok (main_df, weapon_df, stats)) /\
    Forall (fun r => forallb is_nan r = false) (rows weapon_df).
Proof.
  intros Hfs.
  destruct (parse_kovaaks_csv_closed fs read_csv path lines Hfs) as (t & E & _).
  eexists _, _, _, _. split; [exact E|].
  unfold weapon_table_of.
  destruct (find_boundaries lines).1 as [s1|]; [|by constructor].
  destruct (find_boundaries lines).2 as [s2|]; [|by constructor].
  destruct (read_csv lines s1 (s2 - s1 - 1)%nat) as [df|e]; [|by constructor].
  apply dropna_all_rows.
Qed.

Lemma weapon_table_no_empty_row_witness :
  (exists t main_df weapon_df stats,
     parse_kovaaks_csv (one_file "a.csv" empty_weapon_row_file) Pandas.read_csv "a.csv" =
       (t, Ok (main_df, weapon_df, stats)) /\
     Forall (fun r => forallb is_nan r = false) (rows weapon_df)) /\
  Pandas.read_csv empty_weapon_row_file 2 1 =
    Ok (mkDataFrame ["Weapon"; "Shots"] [[None; None]]).
Proof.
  split; [|vm_compute; reflexivity].
  exact (weapon_table_has_no_empty_row (one_file "a.csv" empty_weapon_row_file)
           Pandas.read_csv "a.csv" empty_weapon_row_file eq_refl).
Defined.

(** X17. The row limits: the event table never holds more rows than there are
    lines between the first line and the [Weapon,] line, and the weapon
    table never more than there are lines between the [Weapon,] line and
    the [Kills:,] line. *)
Theorem tables_within_row_limits
    (fs : string -> result (list string)) (path : string)
    (lines : list string) (s1 : nat) :
  fs path = Ok lines ->
  (find_boundaries lines).1 = Some s1 ->
  exists t main_df weapon_df stats,
    parse_kovaaks_csv fs Pandas.read_csv path = (t, Ok (main_df, weapon_df, stats)) /\
    (df_len main_df <= s1 - 1)%nat /\
    forall s2, (find_boundaries lines).2 = Some s2 ->
               (df_len weapon_df <= s2 - s1 - 1)%nat.
Proof.
  intros Hfs H1.
  destruct (parse_kovaaks_csv_closed fs Pandas.read_csv path lines Hfs) as (t & E & _).
  eexists _, _, _, _. split; [exact E|]. rewrite H1. split.
  - unfold main_table_of, header_or_empty.
    assert (forall df, match Pandas.read_csv lines 0 0 with
                       | Ok df' => df' | Raise _ => DataFrame_empty end = df ->
                       (df_len df <= s1 - 1)%nat) as H0.
    { intros df <-. destruct (Pandas.read_csv lines 0 0) as [df'|e] eqn:E0.
      - apply pandas_read_csv_nrows in E0. lia.
      - unfold df_len. simpl. lia. }
    destruct (0 <? s1)%nat; [|unfold df_len; simpl; lia].
    destruct (Pandas.read_csv lines 0 (s1 - 1)) as [df|e] eqn:E1; [|by apply H0].
    destruct (df_len df =? 0)%nat; [by apply H0|].
    by apply pandas_read_csv_nrows in E1.
  - intros s2 ->. unfold weapon_table_of.
    destruct (Pandas.read_csv lines s1 (s2 - s1 - 1)) as [df|e] eqn:E2.
    + apply pandas_read_csv_nrows in E2.
      pose proof (proj2 (dropna_all_rows df)). lia.
    + unfold df_len. simpl. lia.
Qed.

Lemma tables_within_row_limits_witness :
  exists t main_df weapon_df stats,
    parse_kovaaks_csv (one_file "a.csv" blank_separated_file) Pandas.read_csv "a.csv" =
      (t, Ok (main_df, weapon_df, stats)) /\
    (df_len main_df <= 3 - 1)%nat /\
    forall s2, (find_boundaries blank_separated_file).2 = Some s2 ->
               (df_len weapon_df <= s2 - 3 - 1)%nat.
Proof.
  exact (tables_within_row_limits (one_file "a.csv" blank_separated_file) "a.csv"
           blank_separated_file 3 eq_refl eq_refl).
Defined.

(** ** The event table and the lines before the [Weapon,] line *)

Lemma read_csv_section lines s1 n :
  (0 < s1 <= length lines)%nat -> (n <= s1 - 1)%nat ->
  (forall i l, (i < s1)%nat -> lines !! i = Some l -> Pandas.is_blank_line l = false) ->
  Pandas.read_csv lines 0 n = Pandas.read_csv (take s1 lines) 0 n.
Proof.
  intros Hs Hn Hnb. unfold Pandas.read_csv. rewrite !drop_0.
  rewrite <- (take_drop s1 lines) at 1. rewrite List.filter_app.
  assert (Forall (fun l => negb (Pandas.is_blank_line l) = true) (take s1 lines))
    as Hall.
  { apply Forall_forall. intros l [i Hi]%list_elem_of_lookup.
    apply lookup_take_Some in Hi as [Hi Hi'].
    by rewrite (Hnb i l Hi' Hi). }
  rewrite !(filter_all_true _ _ Hall).
  assert (length (take s1 lines) = s1) as Hlen by (rewrite length_take; lia).
  destruct (take s1 lines) as [|h body]; [simpl in Hlen; lia|].
  simpl in Hlen. rewrite <- app_comm_cons.
  by rewrite take_app_le by lia.
Qed.

Lemma main_table_of_range_eq lines s1 :
  (s1 <= length lines)%nat ->
  (forall i l, (i < s1)%nat -> lines !! i = Some l -> Pandas.is_blank_line l = false) ->
  main_table_of Pandas.read_csv lines (Some s1) = event_table_of_range lines s1.
Proof.
  intros Hs Hnb. unfold main_table_of, event_table_of_range, header_or_empty.
  destruct s1 as [|s1]; [by rewrite take_0|].
  change (0 <? S s1)%nat with true. cbv iota zeta.
  rewrite (read_csv_section lines (S s1) (S s1 - 1)) by (done || lia).
  rewrite (read_csv_section lines (S s1) 0) by (done || lia).
  assert (length (take (S s1) lines) = S s1) as -> by (rewrite length_take; lia).
  assert (Pandas.read_csv (take (S s1) lines) 0 (S s1 - 1) =
          Pandas.read_csv (take (S s1) lines) 0 (S s1)) as ->; [|done].
  unfold Pandas.read_csv. destruct (List.filter _ _) as [|h body] eqn:E; [done|].
  rewrite drop_0 in E.
  assert (length body <= s1)%nat as Hb.
  { assert (length (h :: body) <= length (take (S s1) lines))%nat as H
      by (rewrite <- E; apply List.filter_length_le).
    rewrite length_take in H.
    change (length (h :: body)) with (S (length body)) in H. lia. }
  by rewrite !take_ge by lia.
Qed.

(** X18. When no line before the [Weapon,] line is blank, the event table that
    the parse returns is the table of the lines before that line and of no
    other line.  The file is within the table model: no line holds a quote
    character, and the fields of the first line are labels that [pandas]
    keeps as written. *)
Theorem event_table_is_range_without_blank_line
    (fs : string -> result (list string)) (path : string)
    (lines : list string) (s1 : nat) :
  fs path = Ok lines ->
  (find_boundaries lines).1 = Some s1 ->
  forallb Pandas.quote_free lines = true ->
  Pandas.plain_labels <$> lines !! 0%nat = Some true ->
  (forall i l, (i < s1)%nat -> lines !! i = Some l -> Pandas.is_blank_line l = false) ->
  exists t weapon_df stats,
    parse_kovaaks_csv fs Pandas.read_csv path =
      (t, Ok (event_table_of_range lines s1, weapon_df, stats)).
Proof.
  intros Hfs H1 _ _ Hnb.
  destruct (parse_kovaaks_csv_closed fs Pandas.read_csv path lines Hfs) as (t & E & _).
  rewrite H1 in E.
  rewrite find_boundaries_closed in H1. cbn [fst] in H1.
  apply first_before_spec in H1 as [[(l1 & Hl1%lookup_lt_Some & _) _] _].
  rewrite main_table_of_range_eq in E by (done || lia).
  by eexists _, _, _.
Qed.

Lemma event_table_is_range_witness :
  exists t weapon_df stats,
    parse_kovaaks_csv (one_file "a.csv" three_section_file) Pandas.read_csv "a.csv" =
      (t, Ok (event_table_of_range three_section_file 2, weapon_df, stats)).
Proof.
  apply (event_table_is_range_without_blank_line
           (one_file "a.csv" three_section_file) "a.csv" three_section_file 2
           eq_refl eq_refl eq_refl eq_refl).
  intros i l Hi. assert (i = 0 \/ i = 1)%nat as [-> | ->] by lia;
    intros [= <-]; reflexivity.
Defined.

(** ** The event table and a blank line before the [Weapon,] line *)

Lemma prefix_head_contains c p s :
  String.prefix (String c p) s = true -> contains c s = true.
Proof.
  intros [r ->]%prefix_app. rewrite app_cons. simpl. by rewrite Ascii.eqb_refl.
Qed.

(** The table parser does not take a [Weapon,] line for a blank line. *)
Lemma weapon_line_not_blank l :
  is_weapon_line l = true -> Pandas.is_blank_line l = false.
Proof.
  unfold is_weapon_line, startswith, Pandas.is_blank_line, Pandas.chomp.
  intros H%prefix_head_contains. apply (contains_nonempty "W").
  rewrite contains_lstrip_by, contains_rstrip_by by done.
  by rewrite contains_strip in H.
Qed.

(** The records of a table in which no record has more fields than the
    header: each is filled up to the header. *)
Lemma read_records_within width ls :
  Forall (fun l => (length (Pandas.split_fields (Pandas.chomp l)) <= width)%nat) ls ->
  Pandas.read_records width ls =
    Ok ((fun l => Pandas.pad width
                    (Pandas.to_cell <$> Pandas.split_fields (Pandas.chomp l))) <$> ls).
Proof.
  intros H. unfold Pandas.read_records.
  assert (Pandas.table_width width ls = width) as ->.
  { destruct H as [|l ls Hl _]; [done|]. simpl. lia. }
  induction H as [|l ls Hl _ IH]; [done|]. simpl.
  apply Nat.ltb_ge in Hl as ->. rewrite IH.
  unfold Pandas.record_cells. by rewrite Nat.sub_diag, drop_0.
Qed.

(** X19. When the lines before the [Weapon,] line are a header, records and one
    blank line, the table parser skips the blank line without counting it:
    the row limit [section1_end - 1] of line 55 then reaches the [Weapon,]
    line, and the last row of the event table is read from that line.  The
    file is within the table model: no line holds a quote character, the
    fields of the header are labels that [pandas] keeps as written, and
    neither a record nor the [Weapon,] line has more fields than the
    header. *)
Theorem event_table_holds_weapon_line_after_blank
    (fs : string -> result (list string)) (path : string)
    (header : string) (body : list string) (blank wl : string) (rest : list string) :
  fs path = Ok (header :: body ++ blank :: wl :: rest) ->
  (find_boundaries (header :: body ++ blank :: wl :: rest)).1 = Some (length body + 2)%nat ->
  forallb Pandas.quote_free (header :: body ++ blank :: wl :: rest) = true ->
  Pandas.plain_labels header = true ->
  Forall (fun l => Pandas.is_blank_line l = false) (header :: body) ->
  Pandas.is_blank_line blank = true ->
  Forall (fun l => (length (Pandas.split_fields (Pandas.chomp l)) <=
                    length (Pandas.header_fields header))%nat) (body ++ [wl]) ->
  (exists t weapon_df stats,
     parse_kovaaks_csv fs Pandas.read_csv path =
       (t, Ok (mkDataFrame (Pandas.header_fields header)
                 ((fun l => Pandas.pad (length (Pandas.header_fields header))
                              (Pandas.to_cell <$> Pandas.split_fields (Pandas.chomp l)))
                    <$> (body ++ [wl])),
               weapon_df, stats))) /\
  is_weapon_line wl = true.
Proof.
  intros Hfs H1 _ _ Hnb Hblank Hwidth.
  pose proof (read_records_within _ _ Hwidth) as Hrs.
  assert (is_weapon_line wl = true) as Hw.
  { rewrite find_boundaries_closed in H1. cbn [fst] in H1.
    apply first_before_spec in H1 as [[(l1 & Hl1 & Hw) _] _].
    rewrite app_comm_cons, lookup_app_r in Hl1 by (simpl; lia).
    replace (length body + 2 - length (header :: body))%nat with 1%nat in Hl1
      by (simpl; lia).
    by injection Hl1 as ->. }
  split; [|done].
  destruct (parse_kovaaks_csv_closed fs Pandas.read_csv path _ Hfs) as (t & E & _).
  rewrite H1 in E.
  match goal with
  | |- context [mkDataFrame ?c ?r] =>
      assert (main_table_of Pandas.read_csv (header :: body ++ blank :: wl :: rest)
                (Some (length body + 2)%nat) = mkDataFrame c r) as Hmain;
        [|rewrite Hmain in E; by eexists _, _, _]
  end.
  unfold main_table_of.
  replace (0 <? length body + 2)%nat with true by (symmetry; apply Nat.ltb_lt; lia).
  match goal with
  | |- context [mkDataFrame ?c ?r] =>
      assert (Pandas.read_csv (header :: body ++ blank :: wl :: rest) 0
                (length body + 2 - 1) = Ok (mkDataFrame c r)) as ->
  end.
  { unfold Pandas.read_csv. rewrite drop_0.
    rewrite app_comm_cons, List.filter_app.
    rewrite (filter_all_true _ (header :: body))
      by (eapply Forall_impl; [exact Hnb|by intros l ->]).
    simpl. rewrite Hblank, (weapon_line_not_blank _ Hw). simpl.
    replace (length body + 2 - 1)%nat with (length body + 1)%nat by lia.
    rewrite take_app_add. simpl. rewrite take_0.
    by rewrite Hrs. }
  unfold df_len. simpl.
  rewrite length_fmap, length_app. simpl.
  by replace (length body + 1 =? 0)%nat with false
    by (symmetry; apply Nat.eqb_neq; lia).
Qed.

Lemma event_table_holds_weapon_line_witness :
  (exists t weapon_df stats,
     parse_kovaaks_csv (one_file "a.csv" blank_separated_file) Pandas.read_csv "a.csv" =
       (t, Ok (mkDataFrame ["Kill #"; "Bot"]
                 [[Some "1"; Some "target"]; [Some "Weapon"; Some "Shots"]],
               weapon_df, stats))) /\
  is_weapon_line (ln "Weapon,Shots") = true.
Proof.
  apply (event_table_holds_weapon_line_after_blank
           (one_file "a.csv" blank_separated_file) "a.csv"
           (ln "Kill #,Bot") [ln "1,target"] (ln "") (ln "Weapon,Shots")
           [ln "pistol,41"; ln ""; ln "Kills:,33"; ln "Deaths:,0"]
           eq_refl eq_refl eq_refl eq_refl).
  - repeat constructor.
  - reflexivity.
  - repeat (constructor; [simpl; lia|]). constructor.
Defined.

(** ** Stats lines: empty values and the keys of the map *)

Lemma lstrip_by_all p s : all_chars p s = true -> lstrip_by p s = "".
Proof.
  induction s as [|c s IH]; simpl; [done|].
  intros [Hc Hs]%andb_true_iff. rewrite Hc. by apply IH.
Qed.

Lemma is_comma_not_space c : is_comma c = true -> isspace c = false.
Proof. by intros ->%Ascii.eqb_eq. Qed.

(** The text of a stats line [key:value] after [strip], for a value that
    does not end with white space. *)
Lemma stats_line_strip_value key v :
  rstrip_by isspace v = v ->
  strip (ln (key +:+ ":" +:+ v)) = lstrip_by isspace key +:+ ":" +:+ v.
Proof.
  intros Hv. unfold strip, strip_by, ln.
  rewrite append_assoc.
  change ((":" +:+ v) +:+ nl) with (String ":" (v +:+ nl)).
  change (":" +:+ v) with (String ":" v).
  rewrite lstrip_by_app_stop by done.
  assert (rstrip_by isspace (String ":" (v +:+ nl)) = String ":" v) as E.
  { rewrite rstrip_by_cons_keep by done.
    by rewrite (rstrip_by_app_all isspace v nl), Hv. }
  rewrite rstrip_by_app_keep; by rewrite E.
Qed.

(** X20. A stats line whose value holds commas only, or nothing, is not
    dropped: its key is stored with the empty string, which is never
    offered to [int] or [float]. *)
Theorem stats_line_commas_only_value (key commas : string) :
  contains ":" key = false -> all_chars is_comma commas = true ->
  stats_entry (ln (key +:+ ":" +:+ commas)) = Some (strip key, VStr "").
Proof.
  intros Hk Hc.
  destruct (strip_by_fixed isspace is_comma _ is_comma_not_space Hc) as [Hl Hr].
  unfold stats_entry. rewrite (stats_line_strip_value key commas Hr).
  change (":" +:+ commas) with (String ":" commas).
  assert (contains ":" (lstrip_by isspace key) = false) as Hk'
    by by rewrite contains_lstrip_by.
  rewrite contains_app. simpl contains. rewrite orb_true_r, andb_true_r.
  rewrite (split_once_app ":" _ _ Hk').
  assert (is_empty (lstrip_by isspace key +:+ String ":" commas) = false) as ->
    by by destruct (lstrip_by isspace key).
  simpl negb. cbv iota. unfold strip at 1, strip_by. rewrite lstrip_by_idemp.
  do 2 f_equal. rewrite stats_value_unfold.
  assert (clean_value commas = "") as ->; [|done].
  unfold clean_value, strip, strip_by, lstrip_commas, rstrip_commas.
  by rewrite Hl, Hr, Hl, Hr, (lstrip_by_all _ _ Hc).
Qed.

Lemma stats_line_commas_only_witness :
  stats_entry (ln ("Key" +:+ ":" +:+ ",,,")) = Some (strip "Key", VStr "").
Proof. exact (stats_line_commas_only_value "Key" ",,," eq_refl eq_refl). Defined.

(** X21. Every line at or after [section2_end] that holds a colon gives a key
    of the stats map, whatever stands before and after the colon: also an
    empty key. *)
Theorem every_colon_line_gives_a_key
    (lines : list string) (s2 i : nat) (raw : string) :
  (s2 <= i)%nat -> lines !! i = Some raw -> contains ":" raw = true ->
  exists k v, stats_entry raw = Some (k, v) /\
              is_Some (parse_stats lines (Some s2) !! k).
Proof.
  intros Hi Hl Hc. destruct (stats_entry_colon raw Hc) as (k & v & He).
  exists k, v. split; [done|]. rewrite parse_stats_lookup.
  apply (last_value_elem k v _ raw); [|done].
  apply list_elem_of_lookup. exists (i - s2)%nat. rewrite lookup_drop.
  by replace (s2 + (i - s2))%nat with i by lia.
Qed.

Lemma every_colon_line_witness :
  exists k v, stats_entry (ln ":,7") = Some (k, v) /\
              is_Some (parse_stats [ln "Kills:,5"; ln ":,7"] (Some 0%nat) !! k).
Proof.
  apply (every_colon_line_gives_a_key [ln "Kills:,5"; ln ":,7"] 0 1 (ln ":,7"));
    [lia|reflexivity|reflexivity].
Defined.

(** ** The exceptions that get through *)

(** X22. The parse of one file raises exactly when the file cannot be opened or
    read by line 33, and then with that exception and without any read by
    the table parser; every exception of the table parser is handled. *)
Theorem parse_raises_only_when_unreadable
    (fs : string -> result (list string))
    (read_csv : list string -> nat -> nat -> result DataFrame)
    (path : string) (e : exn) :
  io_result (parse_kovaaks_csv fs read_csv path) = Raise e <->
  fs path = Raise e /\
  parse_kovaaks_csv fs read_csv path = ([IoReadlines path], Raise e).
Proof.
  split.
  - destruct (fs path) as [lines|e'] eqn:Hfs.
    + destruct (parse_kovaaks_csv_closed fs read_csv path lines Hfs) as (t & E & _).
      by rewrite E.
    + rewrite (parse_kovaaks_csv_unreadable fs read_csv path e' Hfs).
      by intros [= ->].
  - by intros [_ ->].
Qed.

(** X23. A run raises exactly when the directory cannot be listed, and then
    with the exception of [os.listdir], before any file is opened and
    before anything is printed. *)
Theorem run_raises_only_when_listing_fails
    (fs : string -> result (list string))
    (read_csv : list string -> nat -> nat -> result DataFrame)
    (listdir : string -> result (list string)) (dir : string) (e : exn) :
  io_result (load_all_kovaaks_data fs read_csv listdir dir) = Raise e <->
  listdir dir = Raise e /\
  load_all_kovaaks_data fs read_csv listdir dir = ([IoListdir dir], Raise e).
Proof.
  split.
  - destruct (listdir dir) as [names|e'] eqn:Hl.
    + destruct (load_total fs read_csv listdir dir names Hl) as (m & w & s & E).
      by rewrite E.
    + unfold load_all_kovaaks_data, mbind, IO_bind. rewrite Hl. simpl.
      by intros [= ->].
  - by intros [_ ->].
Qed.
